(** * KeiranHost: the upload, retention and retrieval core of [backend/main.py]

    A shallow embedding of the chunk tracker, the assembler, the identifier
    allocator, the metadata store with its JSON snapshot, the retrieval
    check and one cycle of the expiry reaper, followed by the properties
    proved about them.

    Modelling conventions.
    - Python [str] is [string]; the text is taken to be ASCII.
    - Python [int] is [Z]; file contents are lists of [Byte.byte].
    - The two process-wide dicts are insertion-ordered association lists
      with unique keys ([dict_get], [dict_set], [dict_del]), because the
      session lookup of [upload_chunk] takes the first match in insertion
      order.
    - The files under the working directory are a finite map from the text
      of a path to a file (its bytes and its modification time); the
      metadata file is a cell of its own holding the JSON document that
      [json.dump] wrote.  Links and faults of the device (a full disk)
      are not modelled.
    - The upload and the chunk directory are there, made when the module
      is loaded, and a file the service names itself in them, by a fresh
      identifier, is opened for writing.  For every other path, which is
      one built from a file name of a client, an oracle tells what the
      file system raises when it is opened: the directories beside these
      two, the length of a name it puts up with and its permissions are
      not part of the state.
    - [random.choices] and [datetime.now] read two oracles, a stream of
      random numbers and a stream of clock readings, at positions kept in
      the state.
    - An operation is a function from the state to an outcome and the
      state it leaves behind, also when it raises. *)

From Stdlib Require Import ZArith String Ascii List Lia DecimalString Permutation.
From stdpp Require Import gmap strings list fin_maps.

Local Open Scope Z_scope.

(** ** Python strings *)

Module PyStr.

(** [str(i)] for an [int]. *)
Definition str_of_Z (z : Z) : string := NilZero.string_of_int (Z.to_int z).

(** [sep.join(parts)]. *)
Fixpoint join (sep : string) (parts : list string) : string :=
  match parts with
  | [] => EmptyString
  | [p] => p
  | p :: rest => p +:+ sep +:+ join sep rest
  end.

(** [s.lower()] on ASCII text. *)
Definition lower_ascii (c : ascii) : ascii :=
  let n := nat_of_ascii c in
  if ((65 <=? n) && (n <=? 90))%nat then ascii_of_nat (n + 32) else c.

Fixpoint lower (s : string) : string :=
  match s with
  | EmptyString => EmptyString
  | String c s' => String (lower_ascii c) (lower s')
  end.

(** [needle in hay]: the substring test. *)
Fixpoint contains (needle hay : string) : bool :=
  String.prefix needle hay ||
  match hay with
  | EmptyString => false
  | String _ hay' => contains needle hay'
  end.

(** [s.split(sep)] for a one-character separator: never empty. *)
Fixpoint split (sep : ascii) (s : string) : list string :=
  match s with
  | EmptyString => [EmptyString]
  | String c s' =>
      if Ascii.eqb c sep then EmptyString :: split sep s'
      else match split sep s' with
           | [] => [String c EmptyString]
           | p :: ps => String c p :: ps
           end
  end.

(** [s.rfind(c)]: the index of the last occurrence, [-1] when absent. *)
Fixpoint rfind (c : ascii) (s : string) : Z :=
  match s with
  | EmptyString => -1
  | String a s' =>
      let r := rfind c s' in
      if 0 <=? r then r + 1 else if Ascii.eqb a c then 0 else -1
  end.

(** [s[i:]]. *)
Fixpoint drop (i : nat) (s : string) : string :=
  match i, s with
  | O, _ => s
  | S i', String _ s' => drop i' s'
  | S _, EmptyString => EmptyString
  end.

Definition len (s : string) : Z := Z.of_nat (String.length s).

Definition backslash : ascii := ascii_of_nat 92.
Definition dquote : ascii := ascii_of_nat 34.
Definition squote : ascii := ascii_of_nat 39.

Definition hex_digit (n : nat) : ascii :=
  ascii_of_nat (if (n <? 10)%nat then 48 + n else 87 + n).

Fixpoint mem_char (c : ascii) (s : string) : bool :=
  match s with
  | EmptyString => false
  | String a s' => Ascii.eqb a c || mem_char c s'
  end.

(** The escapes of [repr(s)] for a [str] quoted with [q]. *)
Definition repr_char (q c : ascii) : string :=
  let n := nat_of_ascii c in
  if Ascii.eqb c q || Ascii.eqb c backslash then String backslash (String c EmptyString)
  else if (n =? 9)%nat then String backslash "t"
  else if (n =? 10)%nat then String backslash "n"
  else if (n =? 13)%nat then String backslash "r"
  else if ((n <? 32) || (127 <=? n))%nat then
    String backslash
      (String "x" (String (hex_digit (n / 16)) (String (hex_digit (n mod 16)) EmptyString)))
  else String c EmptyString.

Fixpoint repr_body (q : ascii) (s : string) : string :=
  match s with
  | EmptyString => EmptyString
  | String c s' => repr_char q c +:+ repr_body q s'
  end.

(** [repr(s)]: single quotes, unless the text has a single quote and no
    double quote. *)
Definition repr (s : string) : string :=
  let q := if mem_char squote s && negb (mem_char dquote s) then dquote else squote in
  String q (repr_body q s) +:+ String q EmptyString.

End PyStr.

(** ** pathlib on POSIX *)

Module PyPath.

(** The components of a path text: split at [/], the empty and the [.]
    components dropped. *)
Definition parts (s : string) : list string :=
  List.filter (fun c => negb (String.eqb c EmptyString || String.eqb c "."))
              (PyStr.split "/"%char s).

(** [Path(s).name]: the last component. *)
Definition name (s : string) : string := List.last (parts s) EmptyString.

(** [Path(s).suffix]: from the last dot of the name, when that dot is
    neither its first nor its last character. *)
Definition suffix (s : string) : string :=
  let n := name s in
  let i := PyStr.rfind "."%char n in
  if (0 <? i) && (i <? PyStr.len n - 1) then PyStr.drop (Z.to_nat i) n else EmptyString.

(** The root of an absolute path text: two leading slashes are kept,
    any other number is one. *)
Definition root (s : string) : string :=
  if String.prefix "///" s then "/"
  else if String.prefix "//" s then "//"
  else if String.prefix "/" s then "/"
  else EmptyString.

(** [str(Path(dir) / s)] for a relative [dir]: an absolute [s] replaces
    [dir]. *)
Definition join (dir s : string) : string :=
  if String.prefix "/" s then root s +:+ PyStr.join "/" (parts s)
  else PyStr.join "/" (parts dir ++ parts s).

(** [repr(p)] for a [PosixPath]. *)
Definition repr (p : string) : string := "PosixPath(" +:+ PyStr.repr p +:+ ")".

End PyPath.

(** ** datetime

    A naive [datetime] is the record of its seven fields, as the object
    stores them.  Comparison and [timedelta] arithmetic go through the
    position on the proleptic Gregorian time line in microseconds, with
    the calendar functions of the [datetime] module. *)

Module PyDatetime.

Record datetime := mk_datetime {
  year : Z; month : Z; day : Z;
  hour : Z; minute : Z; second : Z; microsecond : Z
}.

#[global] Instance datetime_eq_dec : EqDecision datetime.
Proof. solve_decision. Defined.

Definition MAXORDINAL : Z := 3652059.

Definition is_leap (y : Z) : bool :=
  (y mod 4 =? 0) && (negb (y mod 100 =? 0) || (y mod 400 =? 0)).

Definition DAYS_IN_MONTH : list Z := [-1; 31; 28; 31; 30; 31; 30; 31; 31; 30; 31; 30; 31].
Definition DAYS_BEFORE_MONTH : list Z :=
  [-1; 0; 31; 59; 90; 120; 151; 181; 212; 243; 273; 304; 334].

Definition tab (t : list Z) (i : Z) : Z := nth (Z.to_nat i) t (-1).

Definition days_before_year (y : Z) : Z :=
  let y1 := y - 1 in y1 * 365 + y1 / 4 - y1 / 100 + y1 / 400.

Definition days_in_month (y m : Z) : Z :=
  if (m =? 2) && is_leap y then 29 else tab DAYS_IN_MONTH m.

Definition days_before_month (y m : Z) : Z :=
  tab DAYS_BEFORE_MONTH m + (if (2 <? m) && is_leap y then 1 else 0).

Definition ymd2ord (y m d : Z) : Z :=
  days_before_year y + days_before_month y m + d.

Definition ord2ymd (n0 : Z) : Z * Z * Z :=
  let n := n0 - 1 in
  let n400 := n / 146097 in let n := n mod 146097 in
  let n100 := n / 36524 in let n := n mod 36524 in
  let n4 := n / 1461 in let n := n mod 1461 in
  let n1 := n / 365 in let n := n mod 365 in
  let y := n400 * 400 + 1 + n100 * 100 + n4 * 4 + n1 in
  if (n1 =? 4) || (n100 =? 4) then (y - 1, 12, 31)
  else
    let leapyear := (n1 =? 3) && (negb (n4 =? 24) || (n100 =? 3)) in
    let m := Z.shiftr (n + 50) 5 in
    let preceding := tab DAYS_BEFORE_MONTH m + (if (2 <? m) && leapyear then 1 else 0) in
    if n <? preceding then
      let m' := m - 1 in
      let preceding' :=
        preceding - (tab DAYS_IN_MONTH m' + (if (m' =? 2) && leapyear then 1 else 0)) in
      (y, m', n - preceding' + 1)
    else (y, m, n - preceding + 1).

(** The values a [datetime] object can hold. *)
Definition valid (t : datetime) : bool :=
  (1 <=? year t) && (year t <=? 9999) &&
  (1 <=? month t) && (month t <=? 12) &&
  (1 <=? day t) && (day t <=? days_in_month (year t) (month t)) &&
  (0 <=? hour t) && (hour t <? 24) &&
  (0 <=? minute t) && (minute t <? 60) &&
  (0 <=? second t) && (second t <? 60) &&
  (0 <=? microsecond t) && (microsecond t <? 1000000).

Definition US_PER_DAY : Z := 86400 * 1000000.

(** Microseconds since the start of day 0 of the ordinal calendar. *)
Definition timestamp_us (t : datetime) : Z :=
  ((ymd2ord (year t) (month t) (day t) * 86400
    + hour t * 3600 + minute t * 60 + second t) * 1000000) + microsecond t.

(** [a > b]. *)
Definition gt (a b : datetime) : bool := timestamp_us b <? timestamp_us a.

(** [timedelta(hours=h)] in microseconds. *)
Definition hours (h : Z) : Z := h * 3600 * 1000000.

(** [t + delta]: [None] is the [OverflowError] of a date out of range. *)
Definition add (t : datetime) (delta_us : Z) : option datetime :=
  let total := timestamp_us t + delta_us in
  let days := total / US_PER_DAY in
  let rest := total mod US_PER_DAY in
  let secs := rest / 1000000 in
  let us := rest mod 1000000 in
  let h := secs / 3600 in
  let r := secs mod 3600 in
  if (0 <? days) && (days <=? MAXORDINAL) then
    let '(y, m, d) := ord2ymd days in
    Some (mk_datetime y m d h (r / 60) (r mod 60) us)
  else None.

(** *** The ISO text of a timestamp *)

Definition digit (d : Z) : ascii := ascii_of_nat (48 + Z.to_nat d).

(** [v] in [w] decimal digits, zeros to the left. *)
Fixpoint pad (w : nat) (v : Z) : string :=
  match w with
  | O => EmptyString
  | S w' => String (digit (v / 10 ^ Z.of_nat w')) (pad w' (v mod 10 ^ Z.of_nat w'))
  end.

(** [t.isoformat()]: the fraction is left out when it is zero. *)
Definition isoformat (t : datetime) : string :=
  pad 4 (year t) +:+ "-" +:+ pad 2 (month t) +:+ "-" +:+ pad 2 (day t) +:+ "T" +:+
  pad 2 (hour t) +:+ ":" +:+ pad 2 (minute t) +:+ ":" +:+ pad 2 (second t) +:+
  (if microsecond t =? 0 then EmptyString else "." +:+ pad 6 (microsecond t)).

Definition digit_val (c : ascii) : option Z :=
  let n := nat_of_ascii c in
  if ((48 <=? n) && (n <=? 57))%nat then Some (Z.of_nat n - 48) else None.

Fixpoint read_digits (w : nat) (acc : Z) (s : string) : option (Z * string) :=
  match w with
  | O => Some (acc, s)
  | S w' =>
      match s with
      | EmptyString => None
      | String c s' =>
          match digit_val c with
          | Some d => read_digits w' (acc * 10 + d) s'
          | None => None
          end
      end
  end.

Definition expect (c : ascii) (s : string) : option string :=
  match s with
  | String a s' => if Ascii.eqb a c then Some s' else None
  | EmptyString => None
  end.

(** [datetime.fromisoformat(s)] on the two forms [isoformat] writes for
    a naive timestamp, [YYYY-MM-DDTHH:MM:SS] and the same followed by
    [.ffffff]; [None] is [ValueError].  The other forms the library
    reads are not modelled. *)
Definition fromisoformat (s : string) : option datetime :=
  '(y, s) ← read_digits 4 0 s; s ← expect "-" s;
  '(m, s) ← read_digits 2 0 s; s ← expect "-" s;
  '(d, s) ← read_digits 2 0 s; s ← expect "T" s;
  '(h, s) ← read_digits 2 0 s; s ← expect ":" s;
  '(mi, s) ← read_digits 2 0 s; s ← expect ":" s;
  '(sec, s) ← read_digits 2 0 s;
  '(us, s) ← match s with
             | EmptyString => Some (0, s)
             | _ => s ← expect "." s; read_digits 6 0 s
             end;
  let t := mk_datetime y m d h mi sec us in
  match s with
  | EmptyString => if valid t then Some t else None
  | _ => None
  end.

End PyDatetime.

(** ** Python values and JSON documents *)

Module PyVal.
Import PyDatetime.

(** The values a metadata record is made of, and the ones [json.load]
    can return (floats apart). *)
#[warnings="-register-all"]
Inductive pyval :=
| PNone
| PBool (b : bool)
| PInt (z : Z)
| PStr (s : string)
| PDatetime (t : datetime)
| PList (l : list pyval)
| PDict (d : list (string * pyval)).

(** A JSON document, as [json.dump] writes it and [json.load] reads it;
    the text of the document is not modelled. *)
#[warnings="-register-all"]
Inductive json :=
| JNull
| JBool (b : bool)
| JInt (z : Z)
| JStr (s : string)
| JList (l : list json)
| JObj (d : list (string * json)).

(** [bool(v)]. *)
Definition truthy (v : pyval) : bool :=
  match v with
  | PNone => false
  | PBool b => b
  | PInt z => negb (z =? 0)
  | PStr s => negb (String.eqb s EmptyString)
  | PDatetime _ => true
  | PList l => match l with [] => false | _ => true end
  | PDict d => match d with [] => false | _ => true end
  end.

(** [t.isoformat(sep=' ')], which is [str(t)]. *)
Definition str_datetime (t : datetime) : string :=
  pad 4 (year t) +:+ "-" +:+ pad 2 (month t) +:+ "-" +:+ pad 2 (day t) +:+ " " +:+
  pad 2 (hour t) +:+ ":" +:+ pad 2 (minute t) +:+ ":" +:+ pad 2 (second t) +:+
  (if microsecond t =? 0 then EmptyString else "." +:+ pad 6 (microsecond t)).

Definition repr_datetime (t : datetime) : string :=
  let l := [year t; month t; day t; hour t; minute t] ++
           (if microsecond t =? 0
            then (if second t =? 0 then [] else [second t])
            else [second t; microsecond t]) in
  "datetime.datetime(" +:+ PyStr.join ", " (List.map PyStr.str_of_Z l) +:+ ")".

Fixpoint repr (v : pyval) : string :=
  match v with
  | PNone => "None"
  | PBool b => if b then "True" else "False"
  | PInt z => PyStr.str_of_Z z
  | PStr s => PyStr.repr s
  | PDatetime t => repr_datetime t
  | PList l => "[" +:+ PyStr.join ", " (List.map repr l) +:+ "]"
  | PDict d =>
      "{" +:+ PyStr.join ", "
                (List.map (fun kv => PyStr.repr (fst kv) +:+ ": " +:+ repr (snd kv)) d)
          +:+ "}"
  end.

(** [str(v)], also what an f-string writes for [{v}]. *)
Definition str (v : pyval) : string :=
  match v with
  | PStr s => s
  | PDatetime t => str_datetime t
  | _ => repr v
  end.

(** [DateTimeEncoder.default(obj)]: called by the serialiser for the
    one kind of value it cannot write itself. *)
Definition DateTimeEncoder_default (obj : datetime) : string := isoformat obj.

(** [json.dump(v, f, cls=DateTimeEncoder)]. *)
Fixpoint json_dump (v : pyval) : json :=
  match v with
  | PNone => JNull
  | PBool b => JBool b
  | PInt z => JInt z
  | PStr s => JStr s
  | PDatetime t => JStr (DateTimeEncoder_default t)
  | PList l => JList (List.map json_dump l)
  | PDict d => JObj (List.map (fun kv => (fst kv, json_dump (snd kv))) d)
  end.

Definition time_keys : list string := ["upload_time"; "expiry_time"].

(** One turn of the loop of [DateTimeDecoder.object_hook]. *)
Definition hook_item (kv : string * pyval) : string * pyval :=
  match snd kv with
  | PStr s =>
      if existsb (String.eqb (fst kv)) time_keys then
        match fromisoformat s with
        | Some t => (fst kv, PDatetime t)
        | None => kv
        end
      else kv
  | _ => kv
  end.

(** [DateTimeDecoder.object_hook(dct)]. *)
Definition object_hook (dct : list (string * pyval)) : list (string * pyval) :=
  List.map hook_item dct.

(** [json.load(f, cls=DateTimeDecoder)]: the hook is applied to every
    object of the document, the inner ones first. *)
Fixpoint json_load (j : json) : pyval :=
  match j with
  | JNull => PNone
  | JBool b => PBool b
  | JInt z => PInt z
  | JStr s => PStr s
  | JList l => PList (List.map json_load l)
  | JObj d => PDict (object_hook (List.map (fun kv => (fst kv, json_load (snd kv))) d))
  end.

End PyVal.

(** ** Python dicts: association lists in insertion order *)

Section Dict.
Context {K : Type} `{EqDecision K} {V : Type}.

(** [d.get(k)]. *)
Fixpoint dict_get (k : K) (d : list (K * V)) : option V :=
  match d with
  | [] => None
  | (k', v) :: d' => if decide (k' = k) then Some v else dict_get k d'
  end.

(** [k in d]. *)
Definition dict_mem (k : K) (d : list (K * V)) : bool :=
  match dict_get k d with Some _ => true | None => false end.

(** [d[k] = v]: the value of a present key is replaced where it is, a
    new key goes to the end. *)
Fixpoint dict_set (k : K) (v : V) (d : list (K * V)) : list (K * V) :=
  match d with
  | [] => [(k, v)]
  | (k', v') :: d' =>
      if decide (k' = k) then (k', v) :: d' else (k', v') :: dict_set k v d'
  end.

(** [del d[k]] for a present key. *)
Fixpoint dict_del (k : K) (d : list (K * V)) : list (K * V) :=
  match d with
  | [] => []
  | (k', v') :: d' =>
      if decide (k' = k) then d' else (k', v') :: dict_del k d'
  end.

Definition dict_keys (d : list (K * V)) : list K := List.map fst d.

(** [len(d)]. *)
Definition dict_len (d : list (K * V)) : Z := Z.of_nat (List.length d).

End Dict.

(** ** The state of the service and its operations *)

Module Host.
Import PyDatetime PyVal.

(** A file of the upload or the chunk directory: its bytes and its
    modification time, in microseconds on the time line of
    [timestamp_us]. *)
Record file := mk_file { data : list Byte.byte; mtime : Z }.

(** What the metadata file holds: the document of the last
    [json.dump], or text that [json.load] rejects. *)
Inductive durable :=
| Garbage
| Document (entries : list (string * json)).

Inductive exn :=
| HTTPException (status_code : Z) (detail : string)
| KeyError (key_repr : string)
| FileNotFoundError (path : string)
| OSError (errno : Z) (strerror : string) (filename : string)
| TypeError
| AttributeError
| OverflowError
| JSONDecodeError.

(** [str(e)], for the exceptions whose text reaches a response. *)
Definition str_exn (e : exn) : string :=
  match e with
  | KeyError k => k
  | FileNotFoundError p => "[Errno 2] No such file or directory: " +:+ PyStr.repr p
  | OSError n msg p =>
      "[Errno " +:+ PyStr.str_of_Z n +:+ "] " +:+ msg +:+ ": " +:+ PyStr.repr p
  | HTTPException _ d => d
  | _ => EmptyString
  end.

(** The lines the three handlers print. *)
Inductive printed :=
| ErrorSavingMetadata (e : exn)
| ErrorLoadingMetadata (e : exn)
| ErrorInCleanupTask (e : exn).

Record World := mk_world {
  chunk_tracking : list (string * list (Z * string));
  file_metadata : list (string * pyval);
  files : gmap string file;
  metadata_file : option durable;
  snapshots : nat;
  stdout : list printed;
  rng_pos : nat;
  clock_pos : nat
}.

Definition set_chunk_tracking (f : list (string * list (Z * string)) →
                                   list (string * list (Z * string))) (w : World) : World :=
  mk_world (f (chunk_tracking w)) (file_metadata w) (files w) (metadata_file w)
           (snapshots w) (stdout w) (rng_pos w) (clock_pos w).
Definition set_file_metadata (f : list (string * pyval) → list (string * pyval))
    (w : World) : World :=
  mk_world (chunk_tracking w) (f (file_metadata w)) (files w) (metadata_file w)
           (snapshots w) (stdout w) (rng_pos w) (clock_pos w).
Definition set_files (f : gmap string file → gmap string file) (w : World) : World :=
  mk_world (chunk_tracking w) (file_metadata w) (f (files w)) (metadata_file w)
           (snapshots w) (stdout w) (rng_pos w) (clock_pos w).
(** Writing the metadata file; [snapshots] counts these writes. *)
Definition write_metadata_file (d : durable) (w : World) : World :=
  mk_world (chunk_tracking w) (file_metadata w) (files w) (Some d)
           (S (snapshots w)) (stdout w) (rng_pos w) (clock_pos w).
Definition print (l : printed) (w : World) : World :=
  mk_world (chunk_tracking w) (file_metadata w) (files w) (metadata_file w)
           (snapshots w) (stdout w ++ [l]) (rng_pos w) (clock_pos w).
Definition set_rng_pos (n : nat) (w : World) : World :=
  mk_world (chunk_tracking w) (file_metadata w) (files w) (metadata_file w)
           (snapshots w) (stdout w) n (clock_pos w).
Definition set_clock_pos (n : nat) (w : World) : World :=
  mk_world (chunk_tracking w) (file_metadata w) (files w) (metadata_file w)
           (snapshots w) (stdout w) (rng_pos w) n.

(** What the service cannot decide itself: the random stream, the
    clock, the two libraries that look at the assembled file, what the
    file system raises when a path is opened for writing that goes
    through a file name of a client (a parent directory that is not
    there, a name that is too long, a directory in the way), and the
    number of draws an evaluation of the allocation loop follows. *)
Record Env := mk_env {
  random_index : nat → nat;
  wall_clock : nat → datetime;
  magic_from_file : list Byte.byte → string;
  naturalsize : Z → string;
  open_error : string → option exn;
  draws : nat
}.

(** *** Outcomes *)

Inductive outcome (A : Type) :=
| Return (a : A)
| Raise (e : exn)
| Timeout.
Arguments Return {A} a.
Arguments Raise {A} e.
Arguments Timeout {A}.

Definition M (A : Type) : Type := World → outcome A * World.

Definition ret {A} (a : A) : M A := fun w => (Return a, w).
Definition bind {A B} (m : M A) (k : A → M B) : M B :=
  fun w => match m w with
           | (Return a, w') => k a w'
           | (Raise e, w') => (Raise e, w')
           | (Timeout, w') => (Timeout, w')
           end.
Definition raise {A} (e : exn) : M A := fun w => (Raise e, w).
Definition timeout {A} : M A := fun w => (Timeout, w).
Definition gets {A} (f : World → A) : M A := fun w => (Return (f w), w).
Definition modify (f : World → World) : M unit := fun w => (Return tt, f w).

(** [try: m except Exception as e: h e]. *)
Definition try_except {A} (m : M A) (h : exn → M A) : M A :=
  fun w => match m w with
           | (Raise e, w') => h e w'
           | r => r
           end.

(** [for x in xs: body x]. *)
Fixpoint for_each {A} (xs : list A) (body : A → M unit) : M unit :=
  match xs with
  | [] => ret tt
  | x :: xs' => bind (body x) (fun _ => for_each xs' body)
  end.

Declare Scope host_scope.
Delimit Scope host_scope with host.
Bind Scope host_scope with M.
Notation "'let*' x := m 'in' k" := (bind m (fun x => k))
  (at level 10, x name, m at level 100, k at level 200) : host_scope.
Notation "m ;; k" := (bind m (fun _ => k))
  (at level 100, k at level 200, right associativity) : host_scope.

Local Open Scope host_scope.

Definition UPLOAD_DIR : string := "uploads".
Definition CHUNK_DIR : string := "chunks".
Definition ALLOWED_EXTENSIONS : list string :=
  [".png"; ".jpg"; ".jpeg"; ".gif"; ".mp4"; ".webm"; ".pdf"].

(** [ext in ALLOWED_EXTENSIONS]. *)
Definition allowed (ext : string) : bool := existsb (String.eqb ext) ALLOWED_EXTENSIONS.

(** What a handler returns. *)
Record page := mk_page {
  page_name : string; page_human_size : string;
  page_uploaded : datetime; page_expires : datetime;
  page_file_url : string; page_mime_type : string;
  page_is_image : bool; page_is_video : bool
}.

Inductive response :=
| ChunkStored (chunkId : string) (success : bool)
| UploadCompleted (fileId shareLink : string)
| FileResponse (path : string) (media_type filename : pyval)
| HTMLResponse (content : page).

Record Request := mk_request { accept : option string; raw : option string }.

Record CompleteUploadRequest := mk_complete { fileName : string; totalChunks : Z }.

(** *** Values looked into at run time *)

(** [v[k]] for a text key. *)
Definition getitem (v : pyval) (k : string) : M pyval :=
  match v with
  | PDict d =>
      match dict_get k d with
      | Some x => ret x
      | None => raise (KeyError (PyStr.repr k))
      end
  | _ => raise TypeError
  end.

(** [now > v]. *)
Definition datetime_gt (now : datetime) (v : pyval) : M bool :=
  match v with
  | PDatetime t => ret (gt now t)
  | _ => raise TypeError
  end.

(** [v.startswith(p)]. *)
Definition startswith (v : pyval) (p : string) : M bool :=
  match v with
  | PStr s => ret (String.prefix p s)
  | _ => raise AttributeError
  end.

(** The receiver of [v.strftime(...)]. *)
Definition strftime_of (v : pyval) : M datetime :=
  match v with
  | PDatetime t => ret t
  | _ => raise AttributeError
  end.

(** *** FileRecord *)

(** The seven fields of the dict [complete_upload] stores under an
    identifier. *)
Record FileRecord := mk_record {
  original_name : string;
  mime_type : string;
  size : Z;
  human_size : string;
  upload_time : datetime;
  expiry_time : datetime;
  extension : string
}.

(** The dict literal of [complete_upload]. *)
Definition record_dict (r : FileRecord) : pyval :=
  PDict [("original_name", PStr (original_name r));
         ("mime_type", PStr (mime_type r));
         ("size", PInt (size r));
         ("human_size", PStr (human_size r));
         ("upload_time", PDatetime (upload_time r));
         ("expiry_time", PDatetime (expiry_time r));
         ("extension", PStr (extension r))].

(** A value of the store that is such a dict, with timestamps a
    [datetime] object can hold. *)
Definition is_record (v : pyval) : Prop :=
  ∃ r, v = record_dict r ∧ valid (upload_time r) = true ∧ valid (expiry_time r) = true.

(** A store whose values are all records. *)
Definition store_of_records (store : list (string * pyval)) : Prop :=
  Forall (fun kv => is_record (snd kv)) store.

(** The stored object of a record: the identifier followed by the extension, in [UPLOAD_DIR]. *)
Definition object_path (file_id : string) (r : FileRecord) : string :=
  PyPath.join UPLOAD_DIR (file_id +:+ extension r).

(** [string.ascii_letters + string.digits]. *)
Definition chars : string :=
  "abcdefghijklmnopqrstuvwxyzABCDEFGHIJKLMNOPQRSTUVWXYZ0123456789".

(** *** The paths the service names itself

    [UPLOAD_DIR] and [CHUNK_DIR] are made when the module is loaded.
    The object of an upload is named by a fresh identifier and the suffix
    of the file name, the file of a first chunk by a fresh identifier,
    [_0] and an extension of the whitelist: these names have no slash
    and are entries of the two directories.  The file of a later chunk
    is named by the key of a session, which is a file name of a client,
    and may lie anywhere. *)

(** Six characters of [chars]. *)
Definition is_short_id (s : string) : bool :=
  Nat.eqb (String.length s) 6
  && forallb (fun c => PyStr.mem_char c chars) (list_ascii_of_string s).

Definition own_object_name (n : string) : bool :=
  is_short_id (String.substring 0 6 n) && negb (PyStr.mem_char "/" (PyStr.drop 6 n)).

Definition own_chunk_name (n : string) : bool :=
  is_short_id (String.substring 0 6 n)
  && existsb (fun ext => String.eqb (PyStr.drop 6 n) ("_0" +:+ ext)) ALLOWED_EXTENSIONS.

(** The rest of [p] after [dir] and a slash. *)
Definition child_of (dir p : string) : option string :=
  if String.prefix (dir +:+ "/") p
  then Some (PyStr.drop (String.length dir + 1) p)
  else None.

Definition own_path (p : string) : bool :=
  match child_of UPLOAD_DIR p with
  | Some n => own_object_name n
  | None =>
      match child_of CHUNK_DIR p with
      | Some n => own_chunk_name n
      | None => false
      end
  end.

Section Operations.
Variable env : Env.

(** *** The clock and the files *)

(** [datetime.now()]. *)
Definition datetime_now : M datetime :=
  fun w => (Return (wall_clock env (clock_pos w)), set_clock_pos (S (clock_pos w)) w).

(** The time a write stamps on a file. *)
Definition os_time (w : World) : Z := timestamp_us (wall_clock env (clock_pos w)).

(** [p.exists()]. *)
Definition path_exists (p : string) : M bool :=
  gets (fun w => match files w !! p with Some _ => true | None => false end).

(** What [p.open(wb)] raises: nothing for a path the service names
    itself, what the file system says for any other. *)
Definition open_failure (p : string) : option exn :=
  if own_path p then None else open_error env p.

(** [p.open(wb)]: the file is created, or emptied, unless the file
    system refuses the path; then nothing is created. *)
Definition open_wb (p : string) : M unit :=
  match open_failure p with
  | Some e => raise e
  | None => modify (fun w => set_files (insert p (mk_file [] (os_time w))) w)
  end.

(** Writing to the file opened at [p]; nothing reaches the name when
    it has been unlinked since. *)
Definition write (p : string) (bs : list Byte.byte) : M unit :=
  modify (fun w => set_files (alter (fun f => mk_file (data f ++ bs) (os_time w)) p) w).

(** Reading the whole of [p.open(rb)]. *)
Definition read_bytes (p : string) : M (list Byte.byte) :=
  fun w => match files w !! p with
           | Some f => (Return (data f), w)
           | None => (Raise (FileNotFoundError p), w)
           end.

(** [p.unlink()]. *)
Definition unlink (p : string) : M unit :=
  fun w => match files w !! p with
           | Some _ => (Return tt, set_files (delete p) w)
           | None => (Raise (FileNotFoundError p), w)
           end.

(** [p.stat().st_size]. *)
Definition stat_size (p : string) : M Z :=
  let* bs := read_bytes p in ret (Z.of_nat (List.length bs)).

(** *** IdentifierAllocator *)

Definition pick (population : string) (r : nat) : ascii :=
  match String.get (r mod String.length population) population with
  | Some c => c
  | None => " "%char
  end.

(** [''.join(random.choices(population, k=k))]. *)
Definition random_choices (population : string) (k : nat) : M string :=
  fun w =>
    (Return (string_of_list_ascii
               (List.map (fun j => pick population (random_index env (rng_pos w + j)))
                         (seq 0 k))),
     set_rng_pos (rng_pos w + k) w).

(** The [while True] of [generate_short_id], followed for [fuel]
    draws. *)
Fixpoint generate_short_id_loop (fuel : nat) (length : nat) : M string :=
  match fuel with
  | O => timeout
  | S fuel' =>
      let* short_id := random_choices chars length in
      let* taken := path_exists (PyPath.join UPLOAD_DIR short_id) in
      if negb taken then ret short_id else generate_short_id_loop fuel' length
  end.

Definition generate_short_id (length : nat) : M string :=
  generate_short_id_loop (draws env) length.

(** *** ChunkSessionTracker *)

(** [str(v)] for the chunk dict of a session. *)
Definition str_chunks (v : list (Z * string)) : string :=
  "{" +:+ PyStr.join ", "
            (List.map (fun ip => PyStr.str_of_Z (fst ip) +:+ ": " +:+ PyPath.repr (snd ip)) v)
      +:+ "}".

(** [next((k for k, v in chunk_tracking.items() if fileName in str(v)), None)]. *)
Definition find_session (fileName : string)
    (tracking : list (string * list (Z * string))) : option string :=
  option_map fst
    (List.find (fun kv => PyStr.contains fileName (str_chunks (snd kv))) tracking).

Definition upload_chunk (chunk : list Byte.byte) (fileName : string)
    (chunkIndex totalChunks : Z) : M response :=
  let file_ext := PyStr.lower (PyPath.suffix fileName) in
  if negb (allowed file_ext) then raise (HTTPException 400 "File type not allowed")
  else
    let* file_id :=
      (if chunkIndex =? 0
       then (let* i := generate_short_id 6 in ret (Some i))
       else gets (fun w => find_session fileName (chunk_tracking w))) in
    match file_id with
    | None | Some EmptyString => raise (HTTPException 400 "Upload session not found")
    | Some file_id =>
        let chunk_path :=
          PyPath.join CHUNK_DIR (file_id +:+ "_" +:+ PyStr.str_of_Z chunkIndex +:+ file_ext) in
        try_except (open_wb chunk_path ;; write chunk_path chunk)
          (fun e => raise (HTTPException 500 ("Failed to save chunk: " +:+ str_exn e))) ;;
        modify (set_chunk_tracking
                  (fun t => if dict_mem fileName t then t else dict_set fileName [] t)) ;;
        modify (set_chunk_tracking
                  (fun t => match dict_get fileName t with
                            | Some v => dict_set fileName (dict_set chunkIndex chunk_path v) t
                            | None => t
                            end)) ;;
        ret (ChunkStored chunk_path true)
    end.

(** *** MetadataStore *)

(** [save_metadata()]: the whole store is written over the file. *)
Definition save_metadata : M unit :=
  try_except
    (modify (fun w =>
       write_metadata_file
         (Document (List.map (fun kv => (fst kv, json_dump (snd kv)))
                             (file_metadata w))) w))
    (fun e => modify (print (ErrorSavingMetadata e))).

(** [load_metadata()]: a missing file leaves the store as it is, an
    unreadable one empties it. *)
Definition load_metadata : M unit :=
  try_except
    (let* f := gets metadata_file in
     match f with
     | None => ret tt
     | Some Garbage => raise JSONDecodeError
     | Some (Document entries) =>
         match json_load (JObj entries) with
         | PDict d => modify (set_file_metadata (fun _ => d))
         | _ => ret tt
         end
     end)
    (fun e => modify (print (ErrorLoadingMetadata e)) ;;
              modify (set_file_metadata (fun _ => []))).

(** The globals of a fresh process, over the files the last one left. *)
Definition restart (w : World) : World :=
  set_chunk_tracking (fun _ => []) (set_file_metadata (fun _ => []) w).

(** *** Assembler *)

(** [range(n)]. *)
Definition range (n : Z) : list Z := List.map Z.of_nat (seq 0 (Z.to_nat n)).

(** The chunk dict that maps [start], [start + 1], ... to the paths of a
    list, in this order. *)
Fixpoint indexed (start : nat) (paths : list string) : list (Z * string) :=
  match paths with
  | [] => []
  | p :: paths' => (Z.of_nat start, p) :: indexed (S start) paths'
  end.

(** The body of the loop of [complete_upload]. *)
Definition append_chunk (output_path : string) (chunks : list (Z * string)) (i : Z)
    : M unit :=
  let* chunk_path :=
    (match dict_get i chunks with
     | Some p => ret p
     | None => raise (KeyError (PyStr.str_of_Z i))
     end) in
  let* bs := read_bytes chunk_path in
  write output_path bs ;;
  unlink chunk_path.

(** The body of the [try] of [complete_upload]. *)
Definition combine_chunks (output_path : string) (chunks : list (Z * string))
    (totalChunks : Z) : M unit :=
  open_wb output_path ;;
  for_each (range totalChunks) (append_chunk output_path chunks).

Definition complete_upload (request : CompleteUploadRequest) : M response :=
  let* tracking := gets chunk_tracking in
  match dict_get (fileName request) tracking with
  | None => raise (HTTPException 400 "No chunks found")
  | Some chunks =>
      if negb (dict_len chunks =? totalChunks request)
      then raise (HTTPException 400 "Missing chunks")
      else
        let* file_id := generate_short_id 6 in
        let file_ext := PyStr.lower (PyPath.suffix (fileName request)) in
        let output_path := PyPath.join UPLOAD_DIR (file_id +:+ file_ext) in
        try_except (combine_chunks output_path chunks (totalChunks request))
          (fun e => raise (HTTPException 500
                             ("Failed to combine chunks: " +:+ str_exn e))) ;;
        modify (set_chunk_tracking (dict_del (fileName request))) ;;
        let* file_size := stat_size output_path in
        let* content := read_bytes output_path in
        let mime_type := magic_from_file env content in
        let human_size := naturalsize env file_size in
        let* upload_time := datetime_now in
        let* now2 := datetime_now in
        match add now2 (hours 24) with
        | None => raise OverflowError
        | Some expiry_time =>
            modify (set_file_metadata
                      (dict_set file_id
                         (record_dict
                            (mk_record (fileName request) mime_type file_size human_size
                                       upload_time expiry_time file_ext)))) ;;
            save_metadata ;;
            ret (UploadCompleted file_id ("/files/" +:+ file_id +:+ file_ext))
        end
  end.

(** *** RetrievalGateway *)

Definition wants_raw (request : Request) : bool :=
  let a := match accept request with Some a => a | None => EmptyString end in
  String.prefix "image/" a || String.prefix "video/" a ||
  match raw request with Some r => String.eqb r "true" | None => false end.

(** [file_id.split('.')[0]]. *)
Definition base_id (file_id : string) : string :=
  List.hd EmptyString (PyStr.split "."%char file_id).

Definition get_file (file_id : string) (request : Request) : M response :=
  let base_file_id := base_id file_id in
  let* found := gets (fun w => dict_get base_file_id (file_metadata w)) in
  match found with
  | None => raise (HTTPException 404 "File not found")
  | Some metadata =>
      if negb (truthy metadata) then raise (HTTPException 404 "File not found")
      else
        let* now := datetime_now in
        let* expiry := getitem metadata "expiry_time" in
        let* expired := datetime_gt now expiry in
        if expired then raise (HTTPException 410 "File has expired")
        else
          let* extension := getitem metadata "extension" in
          let file_path := PyPath.join UPLOAD_DIR (base_file_id +:+ PyVal.str extension) in
          let* present := path_exists file_path in
          if negb present then raise (HTTPException 404 "File not found")
          else if wants_raw request then
            let* mime := getitem metadata "mime_type" in
            let* name := getitem metadata "original_name" in
            ret (FileResponse file_path mime name)
          else
            let file_url := "/files/" +:+ base_file_id +:+ PyVal.str extension +:+ "?raw=true" in
            let* mime := getitem metadata "mime_type" in
            let* is_image := startswith mime "image/" in
            let* is_video := startswith mime "video/" in
            let* name := getitem metadata "original_name" in
            let* human := getitem metadata "human_size" in
            let* up := getitem metadata "upload_time" in
            let* uploaded := strftime_of up in
            let* ex := getitem metadata "expiry_time" in
            let* expires := strftime_of ex in
            ret (HTMLResponse
                   (mk_page (PyVal.str name) (PyVal.str human) uploaded expires
                            file_url (PyVal.str mime) is_image is_video))
  end.

(** *** ExpiryReaper *)

(** The list comprehension of [cleanup_expired_files]. *)
Fixpoint collect_expired (now : datetime) (items : list (string * pyval))
    : M (list string) :=
  match items with
  | [] => ret []
  | (file_id, metadata) :: items' =>
      let* expiry := getitem metadata "expiry_time" in
      let* expired := datetime_gt now expiry in
      let* rest := collect_expired now items' in
      ret (if expired then file_id :: rest else rest)
  end.



(** [p] names an entry of the chunk directory. *)
Definition in_chunk_dir (p : string) : bool :=
  String.prefix "chunks/" p &&
  negb (String.eqb (PyStr.drop 7 p) EmptyString) &&
  negb (PyStr.mem_char "/"%char (PyStr.drop 7 p)).

(** The chunk file is older than 24 hours at [now].  The source
    compares two floats of seconds; here both sides are on the
    microsecond time line. *)
Definition stale (now : datetime) (p : string) (f : file) : bool :=
  in_chunk_dir p && (mtime f <? timestamp_us now - hours 24).

(** The body of the loop over the expired identifiers. *)
Definition reap_one (file_id : string) : M unit :=
  let* store := gets file_metadata in
  let* metadata :=
    (match dict_get file_id store with
     | Some md => ret md
     | None => raise (KeyError (PyStr.repr file_id))
     end) in
  let* extension := getitem metadata "extension" in
  let file_path := PyPath.join UPLOAD_DIR (file_id +:+ PyVal.str extension) in
  let* present := path_exists file_path in
  (if present then unlink file_path else ret tt) ;;
  modify (set_file_metadata (dict_del file_id)).

(** The body of the [try] of one turn of the reaper. *)
Definition cleanup_cycle_body : M unit :=
  let* now := datetime_now in
  let* items := gets file_metadata in
  let* expired_files := collect_expired now items in
  for_each expired_files reap_one ;;
  save_metadata ;;
  modify (set_files (filter (fun pf => stale now (fst pf) (snd pf) = false))).

(** One turn of the [while True]; the sleep is left to the clock. *)
Definition cleanup_cycle : M unit :=
  try_except cleanup_cycle_body (fun e => modify (print (ErrorInCleanupTask e))).

(** [cleanup_expired_files()], followed for [cycles] turns. *)
Fixpoint cleanup_expired_files (cycles : nat) : M unit :=
  match cycles with
  | O => ret tt
  | S n => cleanup_cycle ;; cleanup_expired_files n
  end.

End Operations.

(** *** Readings of the state used in the statements *)

(** The text [random_choices] makes of the [k] random numbers that start
    at position [pos] of the stream. *)
Definition drawn (env : Env) (k pos : nat) : string :=
  string_of_list_ascii
    (List.map (fun j => pick chars (random_index env (pos + j))) (seq 0 k)).

(** The expiry time the comprehension of the reaper can compare with the
    clock: the value under [expiry_time] of a dict, when it is a
    [datetime]. *)
Definition expiry_of (metadata : pyval) : option datetime :=
  match metadata with
  | PDict d =>
      match dict_get "expiry_time" d with
      | Some (PDatetime t) => Some t
      | _ => None
      end
  | _ => None
  end.

(** The exception the loop of [complete_upload] meets at index [i]: the
    chunk dict has no such index, or the file it names is not there (and
    is not the output, which the loop has just created). *)
Definition failure_at (output_path : string) (chunks : list (Z * string))
    (fs : gmap string file) (i : Z) (e : exn) : Prop :=
  (dict_get i chunks = None ∧ e = KeyError (PyStr.str_of_Z i))
  ∨ (∃ p, dict_get i chunks = Some p ∧ fs !! p = None ∧ p ≠ output_path
          ∧ e = FileNotFoundError p).

End Host.

(** ** Concrete runs *)

Module Examples.
Import PyDatetime PyVal Host.

(** A clock that starts at [t] and moves by one microsecond from one
    reading to the next. *)
Definition ticking (t : datetime) : nat → datetime :=
  fun n => mk_datetime (year t) (month t) (day t) (hour t) (minute t) (second t)
                       (microsecond t + Z.of_nat n).

Definition new_year : datetime := mk_datetime 2024 1 1 0 0 0 0.

(** A file system that has the two directories and no other: a path is
    opened when it names an entry of one of them. *)
Definition two_directories (p : string) : option exn :=
  let entry n := if PyStr.mem_char "/" n then Some (FileNotFoundError p) else None in
  match child_of UPLOAD_DIR p with
  | Some n => entry n
  | None =>
      match child_of CHUNK_DIR p with
      | Some n => entry n
      | None => Some (FileNotFoundError p)
      end
  end.

(** Every random number is 0, so every draw is [aaaaaa]. *)
Definition env_a : Env :=
  mk_env (fun _ => 0%nat) (ticking new_year) (fun _ => "image/png") (fun _ => "1 Byte")
         two_directories 4.

(** The random numbers count up: the draws are [abcdef], [ghijkl], ... *)
Definition env_seq : Env :=
  mk_env (fun n => n) (ticking new_year) (fun _ => "image/png") (fun _ => "3 Bytes")
         two_directories 4.

Definition empty_world : World := mk_world [] [] ∅ None 0 [] 0 0.

(** The first and only chunk of [a.png] has been stored. *)
Definition one_chunk : World :=
  snd (upload_chunk env_a [Byte.x89] "a.png" 0 1 empty_world).

(** ... and the upload has been completed. *)
Definition one_upload : World :=
  snd (complete_upload env_a (mk_complete "a.png" 1) one_chunk).

(** The chunk file of the session is gone, the session is still tracked. *)
Definition chunk_lost : World := set_files (delete "chunks/aaaaaa_0.png") one_chunk.

(** A clock that stands still at [t]. *)
Definition env_at (t : datetime) : Env :=
  mk_env (fun _ => 0%nat) (fun _ => t) (fun _ => "image/png") (fun _ => "1 Byte")
         two_directories 4.

(** An upload of [a.png] completed while the clock stood at the new year:
    the record expires 24 hours after its upload time. *)
Definition exact_upload : World :=
  snd (complete_upload (env_at new_year) (mk_complete "a.png" 1) one_chunk).

(** The same, the stored object removed from the upload directory. *)
Definition object_lost : World := set_files (delete "uploads/aaaaaa.png") exact_upload.

Definition after_23h : datetime := mk_datetime 2024 1 1 23 0 0 0.
Definition after_25h : datetime := mk_datetime 2024 1 2 1 0 0 0.

Definition plain_request : Request := mk_request None None.

(** The session of [a.png] tracks the indices 0 and 2: two indices, with
    a gap. *)
Definition gap_session : World :=
  set_chunk_tracking
    (fun _ => [("a.png", [(0, "chunks/aaaaaa_0.png"); (2, "chunks/aaaaaa_2.png")])])
    one_chunk.

(** Both chunks of [0.png] have been stored, chunk 0 first.  The file
    name occurs in the path of chunk 0, so chunk 1 finds the session. *)
Definition two_chunks : World :=
  snd (upload_chunk env_seq [Byte.x02; Byte.x03] "0.png" 1 2
         (snd (upload_chunk env_seq [Byte.x01] "0.png" 0 2 empty_world))).

(** The same session, the two indices inserted in the other order. *)
Definition two_chunks_swapped : World :=
  set_chunk_tracking
    (fun _ => [("0.png", [(1, "chunks/0.png_1.png"); (0, "chunks/abcdef_0.png")])])
    two_chunks.

(** The upload directory has an entry named like the first draw of
    [env_seq], without an extension. *)
Definition bare_entry : World :=
  set_files (insert "uploads/abcdef" (mk_file [] 0)) empty_world.

(** The upload directory has an entry named like every draw of [env_a]. *)
Definition all_taken : World :=
  set_files (insert "uploads/aaaaaa" (mk_file [] 0)) empty_world.

(** A metadata file whose one record has an expiry time that is no ISO
    timestamp, and the store a fresh process loads from it. *)
Definition odd_document : durable :=
  Document [("aaaaaa",
             JObj [("original_name", JStr "a.png");
                   ("mime_type", JStr "image/png");
                   ("size", JInt 1);
                   ("human_size", JStr "1 Byte");
                   ("upload_time", JStr "2024-01-01T00:00:00");
                   ("expiry_time", JStr "tomorrow");
                   ("extension", JStr ".png")])].

Definition odd_store : World :=
  snd (load_metadata (restart (write_metadata_file odd_document one_upload))).


Definition after_47h : datetime := mk_datetime 2024 1 2 23 0 0 0.

(** Chunk 0 of [0.png] has been stored. *)
Definition first_of_two : World :=
  snd (upload_chunk env_seq [Byte.x01] "0.png" 0 2 empty_world).

(** Chunk 0 of [d/0.png] has been stored: the key of the session has a
    slash, and the text of its chunk dict holds [0.png]. *)
Definition nested_key : World :=
  snd (upload_chunk env_seq [Byte.x01] "d/0.png" 0 2 empty_world).



End Examples.

(** * Properties *)

Import PyDatetime PyVal Host Examples.

#[global] Arguments PyPath.join : simpl never.
#[global] Arguments PyPath.suffix : simpl never.
#[global] Arguments PyStr.lower : simpl never.
#[global] Arguments PyStr.str_of_Z : simpl never.
#[global] Arguments PyStr.repr : simpl never.
#[global] Arguments PyVal.str : simpl never.
#[global] Arguments String.append : simpl never.
#[global] Arguments add : simpl never.
#[global] Arguments hours : simpl never.
#[global] Arguments timestamp_us : simpl never.
#[global] Arguments gt : simpl never.
#[global] Arguments os_time : simpl never.
#[global] Arguments str_exn : simpl never.
#[global] Arguments allowed : simpl never.
#[global] Arguments range : simpl never.

(** C7.  A chunk whose file name has an extension outside the whitelist is
    refused with 400 File type not allowed, whatever the state is, and the
    state is returned as it was: no session is looked up or created, no
    identifier is drawn and no file is written. *)
Theorem upload_chunk_extension_gate (env : Env) (chunk : list Byte.byte) (fileName : string)
    (chunkIndex totalChunks : Z) (w : World) :
  allowed (PyStr.lower (PyPath.suffix fileName)) = false →
  upload_chunk env chunk fileName chunkIndex totalChunks w
  = (Raise (HTTPException 400 "File type not allowed"), w).
Proof.
  intros Hext. unfold upload_chunk. rewrite Hext. reflexivity.
Qed.

Lemma generate_short_id_loop_frame env fuel n w :
  ∃ k, snd (generate_short_id_loop env fuel n w) = set_rng_pos k w.
Proof.
  revert w. induction fuel as [|fuel IH]; intros w; cbn.
  - exists (rng_pos w). by destruct w.
  - unfold bind, random_choices, path_exists, gets. cbn.
    destruct (files w !! _); cbn.
    + destruct (IH (set_rng_pos (rng_pos w + n) w)) as [k Hk]. exists k. rewrite Hk. by destruct w.
    + eexists. reflexivity.
Qed.


Lemma bind_run {A B} (m : M A) (k : A → M B) (w : World) :
  bind m k w = match m w with
               | (Return a, w') => k a w'
               | (Raise e, w') => (Raise e, w')
               | (Timeout, w') => (Timeout, w')
               end.
Proof. reflexivity. Qed.

Lemma try_except_run {A} (m : M A) (h : exn → M A) (w : World) :
  try_except m h w = match m w with
                     | (Raise e, w') => h e w'
                     | r => r
                     end.
Proof. reflexivity. Qed.


Create Rewrite HintDb run.

Section Run.
Context {A B : Type} (env : Env) (k : A → M B) (w : World).

Lemma run_ret a : bind (ret a) k w = k a w.
Proof. reflexivity. Qed.
Lemma run_raise e : bind (raise e) k w = (Raise e, w).
Proof. reflexivity. Qed.
Lemma run_timeout : bind timeout k w = (Timeout, w).
Proof. reflexivity. Qed.
Lemma run_gets (f : World → A) : bind (gets f) k w = k (f w) w.
Proof. reflexivity. Qed.
Lemma run_assoc {C} (m : M C) (f : C → M A) :
  bind (bind m f) k w = bind m (fun c => bind (f c) k) w.
Proof. unfold bind. by destruct (m w) as [[c|e|] w']. Qed.
End Run.

Section RunUnit.
Context {B : Type} (env : Env) (w : World).

Lemma run_modify (k : unit → M B) f : bind (modify f) k w = k tt (f w).
Proof. reflexivity. Qed.
Lemma run_now (k : datetime → M B) :
  bind (datetime_now env) k w
  = k (wall_clock env (clock_pos w)) (set_clock_pos (S (clock_pos w)) w).
Proof. reflexivity. Qed.
Lemma run_path_exists (k : bool → M B) p :
  bind (path_exists p) k w
  = k (match files w !! p with Some _ => true | None => false end) w.
Proof. reflexivity. Qed.
Lemma run_open_wb (k : unit → M B) p :
  open_failure env p = None →
  bind (open_wb env p) k w = k tt (set_files (insert p (mk_file [] (os_time env w))) w).
Proof. intros Hopen. unfold open_wb. by rewrite Hopen. Qed.
Lemma run_open_wb_refused (k : unit → M B) p e :
  open_failure env p = Some e → bind (open_wb env p) k w = (Raise e, w).
Proof. intros Hopen. unfold open_wb. by rewrite Hopen. Qed.
Lemma run_write (k : unit → M B) p bs :
  bind (write env p bs) k w
  = k tt (set_files (alter (fun f => mk_file (data f ++ bs) (os_time env w)) p) w).
Proof. reflexivity. Qed.
Lemma run_read_bytes (k : list Byte.byte → M B) p :
  bind (read_bytes p) k w
  = match files w !! p with
    | Some f => k (data f) w
    | None => (Raise (FileNotFoundError p), w)
    end.
Proof. unfold bind, read_bytes. by destruct (files w !! p). Qed.
Lemma run_stat_size (k : Z → M B) p :
  bind (stat_size p) k w
  = match files w !! p with
    | Some f => k (Z.of_nat (length (data f))) w
    | None => (Raise (FileNotFoundError p), w)
    end.
Proof. unfold stat_size. rewrite run_assoc, run_read_bytes. by destruct (files w !! p). Qed.
Lemma run_unlink (k : unit → M B) p :
  bind (unlink p) k w
  = match files w !! p with
    | Some _ => k tt (set_files (delete p) w)
    | None => (Raise (FileNotFoundError p), w)
    end.
Proof. unfold bind, unlink. by destruct (files w !! p). Qed.
End RunUnit.

#[global] Hint Rewrite @run_ret @run_raise @run_timeout @run_gets @run_assoc @run_modify
  @run_now @run_path_exists @run_write @run_read_bytes @run_stat_size
  @run_unlink : run.

Lemma generate_short_id_loop_no_raise env fuel n w e :
  fst (generate_short_id_loop env fuel n w) ≠ Raise e.
Proof.
  revert w. induction fuel as [|fuel IH]; intros w; cbn; [done|].
  unfold bind, random_choices, path_exists, gets. cbn.
  destruct (files w !! _); cbn; [apply IH | done].
Qed.

Lemma generate_short_id_frame env n w :
  ∃ k, snd (generate_short_id env n w) = set_rng_pos k w.
Proof. unfold generate_short_id. apply generate_short_id_loop_frame. Qed.

Lemma generate_short_id_no_raise env n w e :
  fst (generate_short_id env n w) ≠ Raise e.
Proof. unfold generate_short_id. apply generate_short_id_loop_no_raise. Qed.

(** The assembly loop touches the files only. *)
Lemma set_files_files w : set_files (fun _ => files w) w = w.
Proof. by destruct w. Qed.

Lemma set_files_twice fs1 fs2 w :
  set_files (fun _ => fs2) (set_files (fun _ => fs1) w) = set_files (fun _ => fs2) w.
Proof. reflexivity. Qed.

Lemma for_each_files {A} (xs : list A) (body : A → M unit) :
  (∀ x w, ∃ fs, snd (body x w) = set_files (fun _ => fs) w) →
  ∀ w, ∃ fs, snd (for_each xs body w) = set_files (fun _ => fs) w.
Proof.
  intros Hbody. induction xs as [|x xs IH]; intros w.
  - exists (files w). symmetry. apply set_files_files.
  - change (for_each (x :: xs) body) with (bind (body x) (fun _ => for_each xs body)).
    rewrite bind_run. destruct (Hbody x w) as [fs1 H1].
    destruct (body x w) as [[[]|e|] w1]; simpl in H1; subst w1.
    + destruct (IH (set_files (fun _ => fs1) w)) as [fs2 H2].
      exists fs2. rewrite H2. apply set_files_twice.
    + by exists fs1.
    + by exists fs1.
Qed.

Lemma append_chunk_files env out chunks i w :
  ∃ fs, snd (append_chunk env out chunks i w) = set_files (fun _ => fs) w.
Proof.
  unfold append_chunk. rewrite bind_run.
  destruct (dict_get i chunks) as [p|];
    [|exists (files w); symmetry; apply set_files_files].
  unfold ret at 1. autorewrite with run.
  destruct (files w !! p) as [f|] eqn:Hp;
    [|exists (files w); symmetry; apply set_files_files].
  autorewrite with run. unfold unlink.
  match goal with |- context [files ?w2 !! p] => destruct (files w2 !! p) end;
    eexists; simpl; reflexivity.
Qed.

Lemma combine_chunks_files env out chunks n w :
  ∃ fs, snd (combine_chunks env out chunks n w) = set_files (fun _ => fs) w.
Proof.
  unfold combine_chunks. destruct (open_failure env out) as [e|] eqn:Hopen.
  { rewrite (run_open_wb_refused env w _ out e Hopen).
    exists (files w). symmetry. apply set_files_files. }
  rewrite run_open_wb by exact Hopen.
  match goal with |- context [for_each ?xs ?b ?w1] =>
    destruct (for_each_files xs b (append_chunk_files env out chunks) w1) as [fs Hfs] end.
  exists fs. rewrite Hfs. reflexivity.
Qed.

(** C6.  [complete_upload] answers 400 No chunks found, leaving the state
    as it was, when the tracker has no session for the file name.  When it
    has one, the answer is 400 Missing chunks exactly when the number of
    tracked indices differs from [totalChunks]: only the count is compared,
    not which indices are there. *)
Theorem complete_upload_errors (env : Env) (request : CompleteUploadRequest) (w : World) :
  match dict_get (fileName request) (chunk_tracking w) with
  | None =>
      complete_upload env request w = (Raise (HTTPException 400 "No chunks found"), w)
  | Some chunks =>
      fst (complete_upload env request w) = Raise (HTTPException 400 "Missing chunks")
      ↔ dict_len chunks ≠ totalChunks request
  end.
Proof.
  unfold complete_upload. rewrite bind_run. cbn.
  destruct (dict_get _ _) as [chunks|] eqn:Hget; [|reflexivity].
  destruct (dict_len chunks =? totalChunks request) eqn:Hlen; cbn.
  - apply Z.eqb_eq in Hlen. split; [|done]. intros H. exfalso.
    rewrite bind_run in H.
    pose proof (generate_short_id_no_raise env 6 w) as Hid.
    destruct (generate_short_id env 6 w) as [[file_id|e|] w1]; cbn in *;
      [|by eapply Hid|done].
    rewrite bind_run, try_except_run in H.
    destruct (combine_chunks _ _ _ _ w1) as [[[]|e|] w2]; cbn in H; try done.
    autorewrite with run in H.
    destruct (files _ !! _) as [f|] eqn:Hf; [|done].
    autorewrite with run in H. cbn [files set_clock_pos] in H. rewrite Hf in H.
    autorewrite with run in H.
    destruct (add _ _); autorewrite with run in H; done.
  - apply Z.eqb_neq in Hlen. done.
Qed.

(** C10.  When [complete_upload] answers 500, the error is the one of the
    handler around the concatenation, and the tracker is what it was
    before the call: the session is still tracked, because its entry is
    deleted only after the loop over the chunks has ended normally. *)
Theorem failed_assembly_keeps_session (env : Env) (request : CompleteUploadRequest)
    (w : World) (d : string) :
  fst (complete_upload env request w) = Raise (HTTPException 500 d) →
  chunk_tracking (snd (complete_upload env request w)) = chunk_tracking w
  ∧ is_Some (dict_get (fileName request) (chunk_tracking (snd (complete_upload env request w))))
  ∧ ∃ e, d = "Failed to combine chunks: " +:+ str_exn e.
Proof.
  unfold complete_upload. autorewrite with run.
  destruct (dict_get _ _) as [chunks|] eqn:Hget; [|done].
  destruct (negb _); [done|]. rewrite bind_run.
  pose proof (generate_short_id_no_raise env 6 w) as Hid.
  destruct (generate_short_id_frame env 6 w) as [k Hk].
  destruct (generate_short_id env 6 w) as [[file_id|e|] w1]; simpl in Hk; subst w1;
    [|by intros ?; exfalso; eapply Hid|done].
  clear Hid. rewrite bind_run, try_except_run.
  match goal with |- context [combine_chunks ?e ?o ?c ?n ?w1] =>
    destruct (combine_chunks_files e o c n w1) as [fs Hfs];
    destruct (combine_chunks e o c n w1) as [[[]|e'|] w2]; simpl in Hfs; subst w2 end.
  - intros H. exfalso. autorewrite with run in H.
    destruct (files _ !! _) as [f|] eqn:Hf; [|done].
    autorewrite with run in H. cbn [files set_clock_pos] in H. rewrite Hf in H.
    autorewrite with run in H.
    destruct (add _ _); autorewrite with run in H; done.
  - unfold raise. cbn [fst snd]. intros [= <-]. cbn [chunk_tracking set_files set_rng_pos].
    rewrite Hget. eauto.
  - done.
Qed.

Lemma upload_chunk_extension_gate_witness :
  allowed (PyStr.lower (PyPath.suffix "setup.EXE")) = false
  ∧ upload_chunk env_a [Byte.x4d] "setup.EXE" 0 1 one_chunk
    = (Raise (HTTPException 400 "File type not allowed"), one_chunk).
Proof.
  split; [reflexivity|].
  apply (upload_chunk_extension_gate env_a [Byte.x4d] "setup.EXE" 0 1 one_chunk).
  reflexivity.
Defined.

Lemma failed_assembly_keeps_session_witness :
  fst (complete_upload env_a (mk_complete "a.png" 1) chunk_lost)
  = Raise (HTTPException 500
      "Failed to combine chunks: [Errno 2] No such file or directory: 'chunks/aaaaaa_0.png'")
  ∧ chunk_tracking (snd (complete_upload env_a (mk_complete "a.png" 1) chunk_lost))
    = chunk_tracking chunk_lost.
Proof.
  assert (H : fst (complete_upload env_a (mk_complete "a.png" 1) chunk_lost)
              = Raise (HTTPException 500
                  "Failed to combine chunks: [Errno 2] No such file or directory: 'chunks/aaaaaa_0.png'"))
    by (vm_compute; reflexivity).
  split; [exact H|].
  exact (proj1 (failed_assembly_keeps_session env_a (mk_complete "a.png" 1) chunk_lost _ H)).
Defined.

(** C2.  The first chunk of [a.png] is stored and opens the session
    [a.png]; the second chunk of the same file name is refused with 400
    Upload session not found and nothing is recorded for it.  The lookup
    searches the file name in the text of the chunk paths, which carry the
    drawn identifier and not the file name. *)
Theorem later_chunk_not_resolved :
  upload_chunk env_a [Byte.x89] "a.png" 0 2 empty_world
  = (Return (ChunkStored "chunks/aaaaaa_0.png" true), one_chunk)
  ∧ chunk_tracking one_chunk = [("a.png", [(0, "chunks/aaaaaa_0.png")])]
  ∧ upload_chunk env_a [Byte.x50] "a.png" 1 2 one_chunk
    = (Raise (HTTPException 400 "Upload session not found"), one_chunk).
Proof. vm_compute. repeat split; reflexivity. Qed.

(** C3.  With [uploads/aaaaaa.png] stored and recorded, the allocator
    returns [aaaaaa] again: it tests [uploads/aaaaaa], the identifier
    without the extension every stored object carries. *)
Theorem allocated_id_has_backing_object :
  fst (generate_short_id env_a 6 one_upload) = Return "aaaaaa"
  ∧ dict_get "aaaaaa" (file_metadata one_upload)
    = Some (record_dict (mk_record "a.png" "image/png" 1 "1 Byte"
                           (mk_datetime 2024 1 1 0 0 0 0) (mk_datetime 2024 1 2 0 0 0 1)
                           ".png"))
  ∧ files one_upload !! PyPath.join UPLOAD_DIR ("aaaaaa" +:+ ".png")
    = Some (mk_file [Byte.x89] 63839750400000000).
Proof. vm_compute. repeat split; reflexivity. Qed.

(** C4.  A completed upload whose two clock readings are one microsecond
    apart stores an expiry time that is not the stored upload time plus 24
    hours: the expiry is computed from the second reading. *)
Theorem expiry_reads_the_clock_twice :
  complete_upload env_a (mk_complete "a.png" 1) one_chunk
  = (Return (UploadCompleted "aaaaaa" "/files/aaaaaa.png"), one_upload)
  ∧ ∃ r, dict_get "aaaaaa" (file_metadata one_upload) = Some (record_dict r)
         ∧ upload_time r = mk_datetime 2024 1 1 0 0 0 0
         ∧ expiry_time r = mk_datetime 2024 1 2 0 0 0 1
         ∧ add (upload_time r) (hours 24) = Some (mk_datetime 2024 1 2 0 0 0 0)
         ∧ Some (expiry_time r) ≠ add (upload_time r) (hours 24).
Proof.
  split; [vm_compute; reflexivity|].
  exists (mk_record "a.png" "image/png" 1 "1 Byte"
            (mk_datetime 2024 1 1 0 0 0 0) (mk_datetime 2024 1 2 0 0 0 1) ".png").
  vm_compute. repeat split; try reflexivity. discriminate.
Qed.

(** ** Retrieval *)

Lemma getitem_record (r : FileRecord) :
  getitem (record_dict r) "expiry_time" = ret (PDatetime (expiry_time r))
  ∧ getitem (record_dict r) "extension" = ret (PStr (extension r))
  ∧ getitem (record_dict r) "mime_type" = ret (PStr (mime_type r))
  ∧ getitem (record_dict r) "original_name" = ret (PStr (original_name r))
  ∧ getitem (record_dict r) "human_size" = ret (PStr (human_size r))
  ∧ getitem (record_dict r) "upload_time" = ret (PDatetime (upload_time r)).
Proof. repeat split; reflexivity. Qed.

Lemma get_file_record env file_id request w r :
  dict_get (base_id file_id) (file_metadata w) = Some (record_dict r) →
  fst (get_file env file_id request w) =
    if gt (wall_clock env (clock_pos w)) (expiry_time r)
    then Raise (HTTPException 410 "File has expired")
    else match files w !! object_path (base_id file_id) r with
         | None => Raise (HTTPException 404 "File not found")
         | Some _ =>
             if wants_raw request
             then Return (FileResponse (object_path (base_id file_id) r)
                            (PStr (mime_type r)) (PStr (original_name r)))
             else Return (HTMLResponse
                    (mk_page (original_name r) (human_size r) (upload_time r)
                       (expiry_time r)
                       ("/files/" +:+ base_id file_id +:+ extension r +:+ "?raw=true")
                       (mime_type r) (String.prefix "image/" (mime_type r))
                       (String.prefix "video/" (mime_type r))))
         end.
Proof.
  intros Hget. unfold get_file. autorewrite with run. rewrite Hget.
  change (truthy (record_dict r)) with true. cbn [negb].
  destruct (getitem_record r) as (He & Hx & Hm & Hn & Hh & Hu).
  autorewrite with run. rewrite He. autorewrite with run.
  unfold datetime_gt. autorewrite with run. cbn [clock_pos set_clock_pos].
  destruct (gt _ _); [reflexivity|].
  rewrite Hx. autorewrite with run. cbn [files set_clock_pos].
  change (PyVal.str (PStr (extension r))) with (extension r).
  unfold object_path. destruct (files w !! _); cbn [negb]; [|reflexivity].
  destruct (wants_raw request).
  - rewrite Hm. autorewrite with run. rewrite Hn. autorewrite with run. reflexivity.
  - rewrite Hm. autorewrite with run. unfold startswith. autorewrite with run.
    rewrite Hn. autorewrite with run. rewrite Hh. autorewrite with run.
    rewrite Hu. autorewrite with run. unfold strftime_of. autorewrite with run.
    rewrite ?He. autorewrite with run. reflexivity.
Qed.

(** C5, as amended.  [get_file] answers 404 when the store has no record
    for the identifier.  For a recorded identifier it answers 410 exactly
    when the clock reading is later than the expiry time, whether the
    stored object is there or not; it answers 404 exactly when the record
    has not expired and the stored object is missing; it succeeds exactly
    when the record has not expired and the stored object is there.  A
    record that expires 24 hours after its upload time is expired 25 hours
    after it, and is served 23 hours after it when its object is there. *)
Theorem get_file_resolution (env : Env) (file_id : string) (request : Request) (w : World) :
  let now := wall_clock env (clock_pos w) in
  let out := fst (get_file env file_id request w) in
  (dict_get (base_id file_id) (file_metadata w) = None →
   out = Raise (HTTPException 404 "File not found"))
  ∧ (∀ r, dict_get (base_id file_id) (file_metadata w) = Some (record_dict r) →
      (out = Raise (HTTPException 410 "File has expired") ↔ gt now (expiry_time r) = true)
      ∧ (out = Raise (HTTPException 404 "File not found")
         ↔ gt now (expiry_time r) = false ∧ files w !! object_path (base_id file_id) r = None)
      ∧ ((∃ resp, out = Return resp)
         ↔ gt now (expiry_time r) = false
           ∧ is_Some (files w !! object_path (base_id file_id) r))
      ∧ (timestamp_us (expiry_time r) = timestamp_us (upload_time r) + hours 24 →
         (timestamp_us now = timestamp_us (upload_time r) + hours 25 →
          out = Raise (HTTPException 410 "File has expired"))
         ∧ (timestamp_us now = timestamp_us (upload_time r) + hours 23 →
            is_Some (files w !! object_path (base_id file_id) r) →
            ∃ resp, out = Return resp))).
Proof.
  intros now out. split.
  - intros Hnone. subst out. unfold get_file. autorewrite with run.
    rewrite Hnone. reflexivity.
  - intros r Hget. pose proof (get_file_record env file_id request w r Hget) as Hout.
    fold now out in Hout.
    assert (Hserved : gt now (expiry_time r) = false →
                      is_Some (files w !! object_path (base_id file_id) r) →
                      ∃ resp, out = Return resp).
    { intros Hgt [f Hf]. rewrite Hout, Hgt, Hf. destruct (wants_raw request); eauto. }
    split; [|split; [|split]].
    + rewrite Hout. destruct (gt now (expiry_time r)); [done|].
      destruct (files w !! _); [destruct (wants_raw request)|]; done.
    + rewrite Hout. destruct (gt now (expiry_time r)); [by split; [|intros [? _]]|].
      destruct (files w !! _); [destruct (wants_raw request)|];
        (split; [intros ?; (done || by split)|intros [? ?]; done]).
    + split.
      * intros [resp Hresp]. rewrite Hout in Hresp.
        destruct (gt now (expiry_time r)); [done|].
        destruct (files w !! _); [eauto|done].
      * intros [Hgt Hf]. by apply Hserved.
    + intros Hexp. unfold hours in Hexp. split.
      * intros Hnow. rewrite Hout.
        replace (gt now (expiry_time r)) with true; [done|].
        symmetry. unfold gt, hours in *. apply Z.ltb_lt. lia.
      * intros Hnow Hf. apply Hserved; [|done].
        unfold gt, hours in *. apply Z.ltb_ge. lia.
Qed.

Lemma get_file_resolution_witness :
  fst (get_file (env_at after_25h) "aaaaaa.png" plain_request exact_upload)
  = Raise (HTTPException 410 "File has expired")
  ∧ ∃ resp, fst (get_file (env_at after_23h) "aaaaaa.png" plain_request exact_upload)
            = Return resp.
Proof.
  pose (r := mk_record "a.png" "image/png" 1 "1 Byte" new_year
               (mk_datetime 2024 1 2 0 0 0 0) ".png").
  assert (Hget : dict_get (base_id "aaaaaa.png") (file_metadata exact_upload)
                 = Some (record_dict r)) by (vm_compute; reflexivity).
  split.
  - apply (proj2 (get_file_resolution (env_at after_25h) "aaaaaa.png" plain_request
                    exact_upload) r Hget); vm_compute; reflexivity.
  - apply (proj2 (get_file_resolution (env_at after_23h) "aaaaaa.png" plain_request
                    exact_upload) r Hget); [vm_compute; reflexivity ..|].
    vm_compute. eauto.
Defined.

(** The record of [aaaaaa] has expired and its stored object is missing:
    the answer is 410, not the 404 of a missing object. *)
Lemma expired_record_without_object :
  ¬ ((dict_get (base_id "aaaaaa.png") (file_metadata object_lost) = None
      ∨ ∃ r, dict_get (base_id "aaaaaa.png") (file_metadata object_lost)
             = Some (record_dict r)
             ∧ files object_lost !! object_path (base_id "aaaaaa.png") r = None) →
     fst (get_file (env_at after_25h) "aaaaaa.png" plain_request object_lost)
     = Raise (HTTPException 404 "File not found")).
Proof.
  intros H.
  assert (Hout : fst (get_file (env_at after_25h) "aaaaaa.png" plain_request object_lost)
                 = Raise (HTTPException 410 "File has expired")) by (vm_compute; reflexivity).
  rewrite Hout in H. enough (Raise (A := response) (HTTPException 410 "File has expired")
                             = Raise (HTTPException 404 "File not found")) by discriminate.
  apply H. right.
  exists (mk_record "a.png" "image/png" 1 "1 Byte" new_year
            (mk_datetime 2024 1 2 0 0 0 0) ".png").
  vm_compute. split; reflexivity.
Qed.

(** ** The durable encoding of timestamps *)

Lemma digit_val_digit (d : Z) : 0 <= d < 10 → digit_val (digit d) = Some d.
Proof.
  intros Hd.
  assert (d = 0 ∨ d = 1 ∨ d = 2 ∨ d = 3 ∨ d = 4 ∨ d = 5 ∨ d = 6 ∨ d = 7 ∨ d = 8 ∨ d = 9)
    as Hcases by lia.
  repeat (destruct Hcases as [-> | Hcases]; [reflexivity|]). by subst.
Qed.

Lemma append_cons (c : ascii) (s rest : string) :
  String c s +:+ rest = String c (s +:+ rest).
Proof. reflexivity. Qed.

Lemma append_empty_l (s : string) : EmptyString +:+ s = s.
Proof. reflexivity. Qed.

Lemma append_empty_r (s : string) : s +:+ EmptyString = s.
Proof. induction s as [|c s IH]; [reflexivity|]. rewrite append_cons. by rewrite IH. Qed.

(** Reading back [w] padded digits gives the number and the rest. *)
Lemma read_digits_pad (w : nat) : ∀ (acc v : Z) (rest : string),
  0 <= v < 10 ^ Z.of_nat w →
  read_digits w acc (pad w v +:+ rest) = Some (acc * 10 ^ Z.of_nat w + v, rest).
Proof.
  induction w as [|w IH]; intros acc v rest Hv.
  - change (10 ^ Z.of_nat 0) with 1 in *. replace v with 0 by lia.
    change (read_digits 0 acc (pad 0 0 +:+ rest)) with (Some (acc, rest)).
    f_equal. f_equal. lia.
  - assert (Hpow : 10 ^ Z.of_nat (S w) = 10 * 10 ^ Z.of_nat w).
    { rewrite Nat2Z.inj_succ. apply Z.pow_succ_r. lia. }
    assert (Hpos : 0 < 10 ^ Z.of_nat w) by (apply Z.pow_pos_nonneg; lia).
    rewrite Hpow in *.
    change (pad (S w) v) with
      (String (digit (v / 10 ^ Z.of_nat w)) (pad w (v mod 10 ^ Z.of_nat w))).
    rewrite append_cons.
    change (read_digits (S w) acc (String ?c ?s)) with
      (match digit_val c with
       | Some d => read_digits w (acc * 10 + d) s
       | None => None
       end).
    rewrite digit_val_digit.
    + rewrite IH by (apply Z.mod_pos_bound; lia).
      f_equal. f_equal.
      pose proof (Z.div_mod v (10 ^ Z.of_nat w)). lia.
    + split; [apply Z.div_pos; lia|]. apply Z.div_lt_upper_bound; lia.
Qed.

Lemma valid_bounds (t : datetime) :
  valid t = true →
  0 <= year t < 10 ^ 4 ∧ 0 <= month t < 10 ^ 2 ∧ 0 <= day t < 10 ^ 2
  ∧ 0 <= hour t < 10 ^ 2 ∧ 0 <= minute t < 10 ^ 2 ∧ 0 <= second t < 10 ^ 2
  ∧ 0 <= microsecond t < 10 ^ 6.
Proof.
  unfold valid. rewrite !andb_true_iff.
  rewrite !Z.leb_le, !Z.ltb_lt.
  intros (((((((((((((Hy1 & Hy2) & Hm1) & Hm2) & Hd1) & Hd2) & Hh1) & Hh2) & Hi1) & Hi2)
                & Hs1) & Hs2) & Hu1) & Hu2).
  assert (days_in_month (year t) (month t) <= 31).
  { unfold days_in_month. destruct (_ && _); [lia|].
    assert (month t = 1 ∨ month t = 2 ∨ month t = 3 ∨ month t = 4 ∨ month t = 5
            ∨ month t = 6 ∨ month t = 7 ∨ month t = 8 ∨ month t = 9 ∨ month t = 10
            ∨ month t = 11 ∨ month t = 12) as Hcases by lia.
    repeat (destruct Hcases as [-> | Hcases]; [vm_compute; discriminate|]).
    rewrite Hcases. vm_compute. discriminate. }
  change (10 ^ 4) with 10000. change (10 ^ 2) with 100. change (10 ^ 6) with 1000000.
  lia.
Qed.

(** [datetime.fromisoformat(t.isoformat()) == t]. *)
Lemma fromisoformat_isoformat (t : datetime) :
  valid t = true → fromisoformat (isoformat t) = Some t.
Proof.
  intros Hvalid. destruct (valid_bounds t Hvalid) as (Hy & Hm & Hd & Hh & Hi & Hs & Hu).
  unfold fromisoformat, isoformat.
  rewrite (read_digits_pad 4) by exact Hy. cbn [mbind option_bind].
  rewrite append_cons, append_empty_l. cbn [expect Ascii.eqb Bool.eqb mbind option_bind].
  rewrite (read_digits_pad 2) by exact Hm. cbn [mbind option_bind].
  rewrite append_cons, append_empty_l. cbn [expect Ascii.eqb Bool.eqb mbind option_bind].
  rewrite (read_digits_pad 2) by exact Hd. cbn [mbind option_bind].
  rewrite append_cons, append_empty_l. cbn [expect Ascii.eqb Bool.eqb mbind option_bind].
  rewrite (read_digits_pad 2) by exact Hh. cbn [mbind option_bind].
  rewrite append_cons, append_empty_l. cbn [expect Ascii.eqb Bool.eqb mbind option_bind].
  rewrite (read_digits_pad 2) by exact Hi. cbn [mbind option_bind].
  rewrite append_cons, append_empty_l. cbn [expect Ascii.eqb Bool.eqb mbind option_bind].
  rewrite (read_digits_pad 2) by exact Hs. cbn [mbind option_bind].
  rewrite !Z.mul_0_l, !Z.add_0_l.
  destruct (microsecond t =? 0) eqn:Hus.
  - apply Z.eqb_eq in Hus. cbn [mbind option_bind].
    replace (mk_datetime (year t) (month t) (day t) (hour t) (minute t) (second t) 0)
      with t by (destruct t; cbn in *; by subst).
    by rewrite Hvalid.
  - rewrite append_cons, append_empty_l.
    cbn [expect Ascii.eqb Bool.eqb mbind option_bind].
    rewrite <- (append_empty_r (pad 6 (microsecond t))).
    rewrite (read_digits_pad 6) by exact Hu. cbn [mbind option_bind].
    rewrite !Z.mul_0_l, !Z.add_0_l.
    replace (mk_datetime (year t) (month t) (day t) (hour t) (minute t) (second t)
               (microsecond t)) with t by (by destruct t).
    by rewrite Hvalid.
Qed.

#[global] Arguments isoformat : simpl never.
#[global] Arguments fromisoformat : simpl never.

(** ** Snapshot and restore of the metadata store *)

Lemma json_roundtrip_record (r : FileRecord) :
  valid (upload_time r) = true → valid (expiry_time r) = true →
  json_load (json_dump (record_dict r)) = record_dict r.
Proof.
  intros Hup Hex. unfold record_dict.
  cbn [json_dump json_load List.map fst snd object_hook].
  unfold hook_item, DateTimeEncoder_default. cbn [fst snd].
  change (existsb (String.eqb "upload_time") time_keys) with true.
  change (existsb (String.eqb "expiry_time") time_keys) with true.
  change (existsb (String.eqb "original_name") time_keys) with false.
  change (existsb (String.eqb "mime_type") time_keys) with false.
  change (existsb (String.eqb "human_size") time_keys) with false.
  change (existsb (String.eqb "extension") time_keys) with false.
  cbv beta iota. rewrite (fromisoformat_isoformat _ Hup), (fromisoformat_isoformat _ Hex).
  reflexivity.
Qed.

Lemma hook_item_record (k : string) (v : pyval) :
  is_record v → hook_item (k, v) = (k, v).
Proof. intros (r & -> & _). reflexivity. Qed.

Lemma load_dump_store (store : list (string * pyval)) :
  store_of_records store →
  object_hook
    (List.map (fun kv => (fst kv, json_load (snd kv)))
       (List.map (fun kv => (fst kv, json_dump (snd kv))) store))
  = store.
Proof.
  unfold store_of_records, object_hook.
  induction 1 as [|[k v] store Hv _ IH]; [reflexivity|].
  cbn [List.map fst snd]. rewrite IH. f_equal.
  cbn [snd] in Hv. destruct Hv as (r & -> & Hup & Hex).
  rewrite (json_roundtrip_record r Hup Hex). apply hook_item_record.
  by exists r.
Qed.

Lemma save_metadata_run (w : World) :
  save_metadata w
  = (Return tt,
     write_metadata_file
       (Document (List.map (fun kv => (fst kv, json_dump (snd kv))) (file_metadata w))) w).
Proof. reflexivity. Qed.

Lemma load_metadata_document (w : World) (entries : list (string * json)) :
  metadata_file w = Some (Document entries) →
  load_metadata w
  = (Return tt,
     set_file_metadata
       (fun _ => object_hook (List.map (fun kv => (fst kv, json_load (snd kv))) entries)) w).
Proof.
  intros Hfile. unfold load_metadata. rewrite try_except_run, run_gets, Hfile.
  reflexivity.
Qed.

(** C8.  For a store of records, writing the snapshot and loading it in a
    fresh process gives back the same store, entry by entry and in the
    same order, with the same upload and expiry timestamps; neither step
    fails or prints. *)
Theorem snapshot_restore_roundtrip (w : World) :
  store_of_records (file_metadata w) →
  let saved := snd (save_metadata w) in
  let restored := snd (load_metadata (restart saved)) in
  fst (save_metadata w) = Return tt
  ∧ fst (load_metadata (restart saved)) = Return tt
  ∧ file_metadata restored = file_metadata w
  ∧ stdout restored = stdout w
  ∧ ∀ file_id r, dict_get file_id (file_metadata w) = Some (record_dict r) →
      ∃ r', dict_get file_id (file_metadata restored) = Some (record_dict r')
            ∧ upload_time r' = upload_time r ∧ expiry_time r' = expiry_time r.
Proof.
  intros Hstore saved restored.
  assert (Hload : load_metadata (restart saved)
                  = (Return tt, set_file_metadata (fun _ => file_metadata w) (restart saved))).
  { subst saved. rewrite save_metadata_run. cbn [snd].
    erewrite load_metadata_document by reflexivity.
    by rewrite (load_dump_store _ Hstore). }
  subst restored. rewrite Hload. cbn [fst snd].
  repeat split; try reflexivity.
  intros file_id r Hget. exists r. cbn [file_metadata set_file_metadata]. done.
Qed.

Lemma snapshot_restore_roundtrip_witness :
  store_of_records (file_metadata one_upload)
  ∧ file_metadata (snd (load_metadata (restart (snd (save_metadata one_upload)))))
    = file_metadata one_upload.
Proof.
  assert (H : store_of_records (file_metadata one_upload)).
  { constructor; [|constructor].
    exists (mk_record "a.png" "image/png" 1 "1 Byte" new_year
              (mk_datetime 2024 1 2 0 0 0 1) ".png").
    vm_compute. repeat split; reflexivity. }
  split; [exact H|].
  exact (proj1 (proj2 (proj2 (snapshot_restore_roundtrip one_upload H)))).
Defined.

(** ** Dicts *)

Section DictFacts.
Context {K : Type} `{EqDecision K} {V : Type}.
Implicit Types (k : K) (d : list (K * V)).


Lemma dict_get_in k v d : dict_get k d = Some v → k ∈ dict_keys d.
Proof.
  induction d as [|[k' v'] d IH]; [done|]. cbn [dict_keys List.map fst dict_get].
  destruct (decide (k' = k)) as [->|]; intros Hget.
  - apply elem_of_cons. by left.
  - apply elem_of_cons. right. by apply IH.
Qed.






End DictFacts.

(** ** The expiry reaper *)










Lemma run_save_metadata {B} (k : unit → M B) (w : World) :
  bind save_metadata k w
  = k tt (write_metadata_file
            (Document (List.map (fun kv => (fst kv, json_dump (snd kv))) (file_metadata w)))
            w).
Proof. reflexivity. Qed.




(** ** Reassembly *)

Lemma append_chunk_run env out chunks i p f w :
  dict_get i chunks = Some p → files w !! p = Some f → p ≠ out →
  append_chunk env out chunks i w
  = (Return tt,
     set_files (fun fs => delete p
                  (alter (fun g => mk_file (data g ++ data f) (os_time env w)) out fs)) w).
Proof.
  intros Hi Hp Hne. unfold append_chunk. rewrite Hi. autorewrite with run.
  rewrite Hp. autorewrite with run. unfold unlink.
  cbn [files set_files]. rewrite lookup_alter_ne by done. rewrite Hp. reflexivity.
Qed.

(** The loop of [complete_upload] from index [start] on: the chunks are
    appended to the output in the order of their indices and unlinked. *)
Lemma assemble_loop env out chunks : ∀ (parts : list (string * list Byte.byte))
    (start : nat) (w : World) (acc : file),
  files w !! out = Some acc →
  (∀ j pc, parts !! j = Some pc → dict_get (Z.of_nat (start + j)) chunks = Some pc.1) →
  Forall (fun pc => data <$> files w !! pc.1 = Some pc.2) parts →
  NoDup parts.*1 → out ∉ parts.*1 →
  ∃ fs,
    for_each (List.map Z.of_nat (seq start (length parts))) (append_chunk env out chunks) w
    = (Return tt, set_files (fun _ => fs) w)
    ∧ data <$> fs !! out = Some (data acc ++ List.concat parts.*2)
    ∧ (∀ p, p ∈ parts.*1 → fs !! p = None)
    ∧ (∀ q, q ≠ out → files w !! q = None → fs !! q = None).
Proof.
  induction parts as [|[p c] parts IH]; intros start w acc Hout Hidx Hfiles Hnodup Hnotin.
  - exists (files w). cbn. rewrite set_files_files, Hout, app_nil_r.
    split; [done|]. split; [done|]. split; [|done].
    intros p Hp. by apply elem_of_nil in Hp.
  - cbn [fmap list_fmap fst snd] in Hnodup, Hnotin.
    apply NoDup_cons in Hnodup as [Hfresh Hnodup].
    apply not_elem_of_cons in Hnotin as [Hne Hnotin].
    apply Forall_cons in Hfiles as [Hp Hfiles]. cbn [fst snd] in Hp.
    destruct (files w !! p) as [f|] eqn:Hf; [|done]. cbn in Hp. injection Hp as <-.
    cbn [length seq List.map].
    change (for_each (?x :: ?xs) ?b) with (bind (b x) (fun _ => for_each xs b)).
    rewrite bind_run.
    rewrite (append_chunk_run env out chunks (Z.of_nat start) p f w); [|..|done].
    2:{ specialize (Hidx 0%nat (p, data f) eq_refl). by rewrite Nat.add_0_r in Hidx. }
    2:{ done. }
    set (w1 := set_files _ w).
    assert (Hother : ∀ q, q ≠ out → q ≠ p → files w1 !! q = files w !! q).
    { intros q Hqo Hqp. subst w1. cbn [files set_files].
      rewrite lookup_delete_ne by done. by rewrite lookup_alter_ne by done. }
    destruct (IH (S start) w1 (mk_file (data acc ++ data f) (os_time env w)))
      as (fs & Hrun & Hdata & Hgone & Habsent).
    + subst w1. cbn [files set_files]. rewrite lookup_delete_ne by done.
      rewrite lookup_alter_eq, Hout. reflexivity.
    + intros j pc Hj. specialize (Hidx (S j) pc Hj).
      by replace (S start + j)%nat with (start + S j)%nat by lia.
    + rewrite Forall_forall in Hfiles. apply Forall_forall. intros [q cq] Hq.
      cbn [fst snd].
      assert (q ∈ parts.*1) as Hqin.
      { apply list_elem_of_fmap. by exists (q, cq). }
      rewrite Hother; [by apply (Hfiles (q, cq))|by intros ->|by intros ->].
    + done.
    + done.
    + exists fs. split; [rewrite Hrun; reflexivity|]. split; [|split].
      * rewrite Hdata. cbn [data fmap list_fmap snd List.concat]. by rewrite app_assoc.
      * intros q Hq. cbn [fmap list_fmap fst] in Hq. apply elem_of_cons in Hq as [->|Hq].
        -- apply Habsent; [done|]. subst w1. cbn [files set_files]. apply lookup_delete_eq.
        -- by apply Hgone.
      * intros q Hqo Hq. apply Habsent; [done|].
        destruct (decide (q = p)) as [->|Hqp].
        -- subst w1. cbn [files set_files]. apply lookup_delete_eq.
        -- by rewrite Hother.
Qed.

Lemma dict_get_elem {K : Type} `{EqDecision K} {V : Type} (k : K) (v : V)
    (d : list (K * V)) :
  NoDup (dict_keys d) → (k, v) ∈ d → dict_get k d = Some v.
Proof.
  induction d as [|[k0 v0] d IH]; [by intros _ ?%elem_of_nil|].
  cbn [dict_keys List.map fst dict_get]. rewrite NoDup_cons, elem_of_cons.
  intros [Hfresh Hnodup] [[= -> ->]|Hin].
  - by rewrite decide_True.
  - destruct (decide (k0 = k)) as [->|Hne]; [|by apply IH].
    exfalso. apply Hfresh. clear -Hin.
    induction d as [|[k1 v1] d IH]; [by apply elem_of_nil in Hin|].
    cbn [dict_keys List.map fst]. apply elem_of_cons in Hin as [[= -> ->]|Hin];
      apply elem_of_cons; [by left|right; by apply IH].
Qed.

Lemma dict_get_set_same {K : Type} `{EqDecision K} {V : Type} (k : K) (v : V)
    (d : list (K * V)) :
  dict_get k (dict_set k v d) = Some v.
Proof.
  induction d as [|[k0 v0] d IH]; cbn [dict_set dict_get].
  - by rewrite decide_True.
  - destruct (decide (k0 = k)) as [->|Hne]; cbn [dict_get].
    + by rewrite decide_True.
    + by rewrite decide_False.
Qed.

Lemma indexed_keys_ge start paths k :
  k ∈ dict_keys (indexed start paths) → Z.of_nat start <= k.
Proof.
  revert start. induction paths as [|p paths IH]; intros start; [by intros ?%elem_of_nil|].
  cbn [indexed dict_keys List.map fst]. rewrite elem_of_cons. intros [->|Hin]; [lia|].
  apply IH in Hin. lia.
Qed.

Lemma indexed_keys_NoDup start paths : NoDup (dict_keys (indexed start paths)).
Proof.
  revert start. induction paths as [|p paths IH]; intros start; [constructor|].
  cbn [indexed dict_keys List.map fst]. apply NoDup_cons. split; [|apply IH].
  intros Hin. apply indexed_keys_ge in Hin. lia.
Qed.

Lemma indexed_elem start paths j p :
  paths !! j = Some p → (Z.of_nat (start + j), p) ∈ indexed start paths.
Proof.
  revert start j. induction paths as [|q paths IH]; intros start j; [done|].
  destruct j as [|j]; cbn [indexed]; intros Hj.
  - injection Hj as ->. rewrite Nat.add_0_r. apply elem_of_cons. by left.
  - apply elem_of_cons. right.
    replace (start + S j)%nat with (S start + j)%nat by lia. by apply IH.
Qed.

Lemma indexed_length start paths : length (indexed start paths) = length paths.
Proof.
  revert start. induction paths as [|p paths IH]; intros start; [done|].
  cbn [indexed length]. by rewrite IH.
Qed.

(** A chunk dict that holds the indices from 0 on, inserted in any order,
    binds each index to its path. *)
Lemma dict_get_indexed chunks paths j p :
  chunks ≡ₚ indexed 0 paths → paths !! j = Some p →
  dict_get (Z.of_nat j) chunks = Some p.
Proof.
  intros Hperm Hj. apply dict_get_elem.
  - unfold dict_keys. change (List.map fst chunks) with (chunks.*1).
    rewrite Hperm. apply (indexed_keys_NoDup 0 paths).
  - rewrite Hperm. by apply (indexed_elem 0 paths j p).
Qed.

(** The [try] of [complete_upload] on a session whose chunks are all
    there. *)
(** ** The paths the service names itself are opened *)

Lemma mem_char_app (c : ascii) (a b : string) :
  PyStr.mem_char c (a +:+ b) = PyStr.mem_char c a || PyStr.mem_char c b.
Proof.
  induction a as [|x a IH]; [reflexivity|].
  change (String x a +:+ b) with (String x (a +:+ b)).
  cbn [PyStr.mem_char]. rewrite IH. by destruct (Ascii.eqb x c).
Qed.

Lemma substring_app (n : nat) (a b : string) :
  String.length a = n → String.substring 0 n (a +:+ b) = a.
Proof.
  revert n. induction a as [|x a IH]; intros n <-.
  - cbn. by destruct b.
  - change (String x a +:+ b) with (String x (a +:+ b)). cbn. by rewrite IH.
Qed.

Lemma drop_app (n : nat) (a b : string) :
  String.length a = n → PyStr.drop n (a +:+ b) = b.
Proof.
  revert n. induction a as [|x a IH]; intros n <-; [reflexivity|].
  change (String x a +:+ b) with (String x (a +:+ b)). cbn. by apply IH.
Qed.

Lemma split_no_sep (sep : ascii) (s : string) :
  PyStr.mem_char sep s = false → PyStr.split sep s = [s].
Proof.
  induction s as [|c s IH]; [reflexivity|]. cbn [PyStr.mem_char PyStr.split].
  intros [Hc Hs]%orb_false_iff. rewrite Hc, (IH Hs). reflexivity.
Qed.

Lemma split_parts_no_sep (sep : ascii) (s : string) :
  Forall (fun p => PyStr.mem_char sep p = false) (PyStr.split sep s).
Proof.
  induction s as [|a s IH]; [by repeat constructor|].
  cbn [PyStr.split]. destruct (Ascii.eqb a sep) eqn:Ha.
  - by constructor.
  - destruct (PyStr.split sep s) as [|p ps].
    + constructor; [|done]. cbn [PyStr.mem_char]. by rewrite Ha.
    + apply Forall_cons in IH as [Hp Hps]. constructor; [|done].
      cbn [PyStr.mem_char]. by rewrite Ha, Hp.
Qed.

Lemma last_without (c : ascii) (l : list string) :
  Forall (fun p => PyStr.mem_char c p = false) l →
  PyStr.mem_char c (List.last l EmptyString) = false.
Proof.
  induction 1 as [|p l Hp Hl IH]; [reflexivity|].
  destruct l as [|q l]; [exact Hp|exact IH].
Qed.

Lemma drop_without (c : ascii) (n : nat) (s : string) :
  PyStr.mem_char c s = false → PyStr.mem_char c (PyStr.drop n s) = false.
Proof.
  revert s. induction n as [|n IH]; intros s Hs; [exact Hs|].
  destruct s as [|a s]; [reflexivity|]. cbn [PyStr.drop]. apply IH.
  cbn [PyStr.mem_char] in Hs. by apply orb_false_iff in Hs as [_ Hs].
Qed.

Lemma lower_keeps_sep (s : string) :
  PyStr.mem_char "/" (PyStr.lower s) = PyStr.mem_char "/" s.
Proof.
  induction s as [|a s IH]; [reflexivity|].
  change (Ascii.eqb (PyStr.lower_ascii a) "/" || PyStr.mem_char "/" (PyStr.lower s)
          = Ascii.eqb a "/" || PyStr.mem_char "/" s).
  rewrite IH. f_equal.
  by destruct a as [[] [] [] [] [] [] [] []].
Qed.

(** The suffix is a part of the last component: it has no slash. *)
Lemma suffix_no_sep (s : string) :
  PyStr.mem_char "/" (PyStr.lower (PyPath.suffix s)) = false.
Proof.
  rewrite lower_keeps_sep. unfold PyPath.suffix. cbv zeta.
  destruct (_ && _); [|reflexivity]. apply drop_without.
  unfold PyPath.name, PyPath.parts. apply last_without.
  apply List.Forall_forall. intros p [Hp _]%List.filter_In.
  pose proof (split_parts_no_sep "/" s) as Hall.
  rewrite List.Forall_forall in Hall. by apply Hall.
Qed.

Lemma allowed_no_sep (ext : string) :
  allowed ext = true → PyStr.mem_char "/" ext = false.
Proof.
  unfold allowed. intros (e & He & Heq)%existsb_exists.
  apply String.eqb_eq in Heq. subst e.
  repeat (destruct He as [<-|He]; [reflexivity|]). destruct He.
Qed.

(** A name without a slash, joined to one of the two directories, is
    the directory, a slash and the name. *)
Lemma join_entry (dir n : string) :
  PyPath.parts dir = [dir] →
  PyStr.mem_char "/" n = false →
  negb (String.eqb n EmptyString || String.eqb n ".") = true →
  PyPath.join dir n = dir +:+ "/" +:+ n.
Proof.
  intros Hdir Hsep Hname. unfold PyPath.join.
  assert (Hroot : String.prefix "/" n = false).
  { destruct n as [|a n]; [reflexivity|]. cbn [PyStr.mem_char] in Hsep.
    apply orb_false_iff in Hsep as [Ha _]. cbn [String.prefix].
    destruct (ascii_dec "/" a) as [<-|_]; [discriminate|reflexivity]. }
  rewrite Hroot, Hdir. unfold PyPath.parts. rewrite (split_no_sep _ _ Hsep).
  cbn [List.filter]. rewrite Hname. reflexivity.
Qed.

Lemma short_id_length (id : string) : is_short_id id = true → String.length id = 6%nat.
Proof. unfold is_short_id. intros [Hlen _]%andb_true_iff. by apply Nat.eqb_eq. Qed.

Lemma short_id_without (c : ascii) (id : string) :
  is_short_id id = true → PyStr.mem_char c chars = false → PyStr.mem_char c id = false.
Proof.
  unfold is_short_id. intros [_ Hall]%andb_true_iff Hc.
  induction id as [|a id IH]; [reflexivity|].
  cbn [list_ascii_of_string forallb] in Hall. apply andb_true_iff in Hall as [Ha Hall].
  cbn [PyStr.mem_char]. rewrite (IH Hall).
  destruct (Ascii.eqb_spec a c) as [->|_]; [congruence|reflexivity].
Qed.

Lemma short_id_entry (id rest : string) :
  is_short_id id = true →
  negb (String.eqb (id +:+ rest) EmptyString || String.eqb (id +:+ rest) ".") = true.
Proof.
  intros Hlen%short_id_length.
  destruct id as [|a [|b id]]; [discriminate..|].
  change (String a (String b id) +:+ rest) with (String a (String b (id +:+ rest))).
  cbn [String.eqb]. by destruct (Ascii.eqb a ".").
Qed.

Lemma child_of_upload_dir (n : string) :
  child_of UPLOAD_DIR (UPLOAD_DIR +:+ "/" +:+ n) = Some n.
Proof. unfold child_of. by destruct n. Qed.

Lemma child_of_chunk_dir (n : string) :
  child_of UPLOAD_DIR (CHUNK_DIR +:+ "/" +:+ n) = None
  ∧ child_of CHUNK_DIR (CHUNK_DIR +:+ "/" +:+ n) = Some n.
Proof. unfold child_of. by destruct n. Qed.

Lemma own_object_path (id ext : string) :
  is_short_id id = true → PyStr.mem_char "/" ext = false →
  own_path (PyPath.join UPLOAD_DIR (id +:+ ext)) = true.
Proof.
  intros Hid Hext.
  assert (Hsep : PyStr.mem_char "/" id = false) by by apply short_id_without.
  rewrite join_entry;
    [|reflexivity|by rewrite mem_char_app, Hsep, Hext|by apply short_id_entry].
  unfold own_path. rewrite child_of_upload_dir. unfold own_object_name.
  rewrite (substring_app 6 id ext), (drop_app 6 id ext) by by apply short_id_length.
  by rewrite Hid, Hext.
Qed.

Lemma own_chunk_path (id ext : string) :
  is_short_id id = true → allowed ext = true →
  own_path (PyPath.join CHUNK_DIR (id +:+ "_" +:+ PyStr.str_of_Z 0 +:+ ext)) = true.
Proof.
  intros Hid Hext. change (PyStr.str_of_Z 0) with "0"%string.
  assert (Hsep : PyStr.mem_char "/" id = false) by by apply short_id_without.
  rewrite join_entry; [|reflexivity| |by apply short_id_entry].
  - unfold own_path.
    destruct (child_of_chunk_dir (id +:+ "_" +:+ "0" +:+ ext)) as [-> ->].
    unfold own_chunk_name.
    rewrite (substring_app 6 id), (drop_app 6 id) by by apply short_id_length.
    rewrite Hid. cbn [andb]. apply existsb_exists.
    unfold allowed in Hext. apply existsb_exists in Hext as (e & He & Heq).
    apply String.eqb_eq in Heq. subst e. exists ext. split; [exact He|].
    apply String.eqb_refl.
  - rewrite mem_char_app, Hsep. cbn [orb].
    change ("_" +:+ "0" +:+ ext) with (String "_" (String "0" ext)).
    cbn [PyStr.mem_char]. by rewrite (allowed_no_sep ext Hext).
Qed.

Lemma string_of_list_ascii_length (l : list ascii) :
  String.length (string_of_list_ascii l) = length l.
Proof. induction l as [|c l IH]; [reflexivity|]. cbn. by rewrite IH. Qed.

Lemma pick_chars (r : nat) : PyStr.mem_char (pick chars r) chars = true.
Proof.
  assert (Hall : forallb (fun k => PyStr.mem_char (pick chars k) chars) (seq 0 62) = true)
    by (vm_compute; reflexivity).
  rewrite forallb_forall in Hall.
  assert (Hmod : pick chars r = pick chars (r mod 62)).
  { unfold pick. change (String.length chars) with 62%nat.
    by rewrite Nat.Div0.mod_mod. }
  rewrite Hmod. apply Hall. apply in_seq.
  pose proof (Nat.mod_upper_bound r 62). lia.
Qed.

(** An identifier the allocator returns has the requested length, is made
    of letters and digits, and names nothing in the upload directory when
    taken without an extension. *)
Lemma generate_short_id_returns env n w short_id w' :
  generate_short_id env n w = (Return short_id, w') →
  String.length short_id = n
  ∧ (∀ c, In c (list_ascii_of_string short_id) → PyStr.mem_char c chars = true)
  ∧ files w !! PyPath.join UPLOAD_DIR short_id = None.
Proof.
  unfold generate_short_id. generalize (draws env) as fuel.
  intros fuel. revert w. induction fuel as [|fuel IH]; intros w; [done|].
  cbn [generate_short_id_loop]. rewrite bind_run. unfold random_choices at 1.
  rewrite run_path_exists. cbn [files set_rng_pos].
  destruct (files w !! _) eqn:Hp; cbn [negb].
  - intros Hrun. destruct (IH _ Hrun) as (Hlen & Hchars & Hfree). done.
  - intros [= <- <-]. split; [|split; [|done]].
    + by rewrite string_of_list_ascii_length, length_map, length_seq.
    + intros c. rewrite list_ascii_of_string_of_list_ascii, in_map_iff.
      intros (j & <- & _). apply pick_chars.
Qed.

Lemma generate_short_id_is_short env w short_id w' :
  generate_short_id env 6 w = (Return short_id, w') → is_short_id short_id = true.
Proof.
  intros (Hlen & Hchars & _)%generate_short_id_returns.
  unfold is_short_id. rewrite Hlen. cbn [Nat.eqb andb].
  apply forallb_forall. exact Hchars.
Qed.

(** The object of an upload and the file of a first chunk are opened. *)
Lemma open_object_path env w file_id w' (name : string) :
  generate_short_id env 6 w = (Return file_id, w') →
  open_failure env (PyPath.join UPLOAD_DIR (file_id +:+ PyStr.lower (PyPath.suffix name)))
  = None.
Proof.
  intros Hid%generate_short_id_is_short. unfold open_failure.
  by rewrite own_object_path by (done || apply suffix_no_sep).
Qed.

Lemma open_first_chunk_path env w file_id w' (ext : string) :
  generate_short_id env 6 w = (Return file_id, w') → allowed ext = true →
  open_failure env (PyPath.join CHUNK_DIR (file_id +:+ "_" +:+ PyStr.str_of_Z 0 +:+ ext))
  = None.
Proof.
  intros Hid%generate_short_id_is_short Hext. unfold open_failure.
  by rewrite own_chunk_path.
Qed.

Lemma combine_chunks_concat env out chunks (parts : list (string * list Byte.byte)) w :
  chunks ≡ₚ indexed 0 parts.*1 →
  Forall (fun pc => data <$> files w !! pc.1 = Some pc.2) parts →
  NoDup parts.*1 → out ∉ parts.*1 →
  open_failure env out = None →
  ∃ fs,
    combine_chunks env out chunks (Z.of_nat (length parts)) w
    = (Return tt, set_files (fun _ => fs) w)
    ∧ data <$> fs !! out = Some (List.concat parts.*2)
    ∧ (∀ p, p ∈ parts.*1 → fs !! p = None).
Proof.
  intros Hperm Hfiles Hnodup Hnotin Hopen. unfold combine_chunks.
  rewrite run_open_wb by exact Hopen.
  unfold range. rewrite Nat2Z.id.
  set (w0 := set_files _ w).
  destruct (assemble_loop env out chunks parts 0 w0 (mk_file [] (os_time env w)))
    as (fs & Hrun & Hdata & Hgone & _).
  - subst w0. cbn [files set_files]. apply lookup_insert_eq.
  - intros j [p c] Hj. cbn [fst Nat.add]. eapply dict_get_indexed; [exact Hperm|].
    rewrite list_lookup_fmap, Hj. reflexivity.
  - rewrite Forall_forall in Hfiles. apply Forall_forall. intros [q cq] Hq. cbn [fst snd].
    subst w0. cbn [files set_files]. rewrite lookup_insert_ne.
    + by apply (Hfiles (q, cq)).
    + intros ->. apply Hnotin. apply list_elem_of_fmap. by exists (q, cq).
  - done.
  - done.
  - exists fs. split; [rewrite Hrun; reflexivity|]. split; [exact Hdata|exact Hgone].
Qed.

(** C1.  Let the session of a file name track the indices 0 to N-1, in
    whatever order they were inserted, at pairwise distinct paths of files
    that exist, none of them the path of the new object, and let
    [totalChunks] be N.  Then [complete_upload] succeeds, the new object
    holds the contents of the chunk files concatenated in the order of
    their indices, every chunk file is gone, and the record of the new
    identifier has the length of the concatenation as its size. *)
Theorem reassembly (env : Env) (request : CompleteUploadRequest) (w w0 : World)
    (chunks : list (Z * string)) (parts : list (string * list Byte.byte))
    (file_id : string) (expiry : datetime) :
  dict_get (fileName request) (chunk_tracking w) = Some chunks →
  chunks ≡ₚ indexed 0 parts.*1 →
  totalChunks request = Z.of_nat (length parts) →
  Forall (fun pc => data <$> files w !! pc.1 = Some pc.2) parts →
  NoDup parts.*1 →
  generate_short_id env 6 w = (Return file_id, w0) →
  let file_ext := PyStr.lower (PyPath.suffix (fileName request)) in
  let output_path := PyPath.join UPLOAD_DIR (file_id +:+ file_ext) in
  output_path ∉ parts.*1 →
  add (wall_clock env (S (clock_pos w))) (hours 24) = Some expiry →
  let finished := complete_upload env request w in
  fst finished = Return (UploadCompleted file_id ("/files/" +:+ file_id +:+ file_ext))
  ∧ data <$> files (snd finished) !! output_path = Some (List.concat parts.*2)
  ∧ (∀ p, p ∈ parts.*1 → files (snd finished) !! p = None)
  ∧ ∃ r, dict_get file_id (file_metadata (snd finished)) = Some (record_dict r)
         ∧ size r = Z.of_nat (length (List.concat parts.*2))
         ∧ extension r = file_ext.
Proof.
  intros Hget Hperm Htotal Hfiles Hnodup Hgen file_ext output_path Hnotin Hadd finished.
  assert (Hlen : dict_len chunks = totalChunks request).
  { unfold dict_len. rewrite Htotal. f_equal.
    rewrite (Permutation_length Hperm), indexed_length. apply length_fmap. }
  destruct (generate_short_id_frame env 6 w) as [k Hk]. rewrite Hgen in Hk.
  cbn [snd] in Hk. subst w0.
  destruct (combine_chunks_concat env output_path chunks parts (set_rng_pos k w))
    as (fs & Hrun & Hdata & Hgone);
    [done..|exact (open_object_path env w file_id _ (fileName request) Hgen)|].
  destruct (fs !! output_path) as [g|] eqn:Hg; [|done].
  cbn in Hdata. injection Hdata as Hdata.
  assert (Hfin : finished
    = (Return (UploadCompleted file_id ("/files/" +:+ file_id +:+ file_ext)),
       write_metadata_file
         (Document
            (List.map (fun kv => (fst kv, json_dump (snd kv)))
               (dict_set file_id
                  (record_dict
                     (mk_record (fileName request) (magic_from_file env (data g))
                        (Z.of_nat (length (data g)))
                        (naturalsize env (Z.of_nat (length (data g))))
                        (wall_clock env (clock_pos w)) expiry file_ext))
                  (file_metadata w))))
         (set_file_metadata
            (dict_set file_id
               (record_dict
                  (mk_record (fileName request) (magic_from_file env (data g))
                     (Z.of_nat (length (data g)))
                     (naturalsize env (Z.of_nat (length (data g))))
                     (wall_clock env (clock_pos w)) expiry file_ext)))
            (set_clock_pos (S (S (clock_pos w)))
               (set_chunk_tracking (dict_del (fileName request))
                  (set_files (fun _ => fs) (set_rng_pos k w))))))).
  { subst finished. unfold complete_upload. rewrite run_gets, Hget, Hlen, Z.eqb_refl.
    cbn [negb]. rewrite bind_run, Hgen. rewrite bind_run, try_except_run.
    rewrite Htotal. fold file_ext output_path. rewrite Hrun.
    rewrite run_modify, run_stat_size.
    cbn [files set_chunk_tracking set_files]. rewrite Hg.
    rewrite run_read_bytes. cbn [files set_chunk_tracking set_files]. rewrite Hg.
    rewrite !run_now.
    cbn [clock_pos set_clock_pos set_chunk_tracking set_files set_rng_pos].
    rewrite Hadd. rewrite run_modify, run_save_metadata. reflexivity. }
  rewrite Hfin. cbn [fst snd files file_metadata write_metadata_file set_file_metadata
                     set_clock_pos set_chunk_tracking set_files set_rng_pos].
  split; [done|]. split; [by rewrite Hg, <- Hdata|]. split; [done|].
  eexists. split; [apply dict_get_set_same|]. cbn [size extension]. by rewrite Hdata.
Qed.

Lemma reassembly_witness :
  chunk_tracking two_chunks_swapped
  = [("0.png", [(1, "chunks/0.png_1.png"); (0, "chunks/abcdef_0.png")])]
  ∧ data <$> files (snd (complete_upload env_seq (mk_complete "0.png" 2) two_chunks_swapped))
             !! "uploads/ghijkl.png"
    = Some [Byte.x01; Byte.x02; Byte.x03].
Proof.
  split; [reflexivity|].
  refine (proj1 (proj2
    (reassembly env_seq (mk_complete "0.png" 2) two_chunks_swapped
       (set_rng_pos 12 two_chunks_swapped)
       [(1, "chunks/0.png_1.png"); (0, "chunks/abcdef_0.png")]
       [("chunks/abcdef_0.png", [Byte.x01]); ("chunks/0.png_1.png", [Byte.x02; Byte.x03])]
       "ghijkl" (mk_datetime 2024 1 2 0 0 0 1) _ _ _ _ _ _ _ _))).
  - reflexivity.
  - apply perm_swap.
  - reflexivity.
  - repeat constructor.
  - apply (bool_decide_unpack _). vm_compute. exact I.
  - vm_compute. reflexivity.
  - apply (bool_decide_unpack _). vm_compute. exact I.
  - vm_compute. reflexivity.
Defined.



(** ** What the allocator and the assembler do guarantee *)

(** The session of [gap_session] has two indices, 0 and 2, and
    [totalChunks] is 2: the count check passes and the assembly fails on
    index 1. *)
Lemma count_is_all_that_is_checked :
  fst (complete_upload env_a (mk_complete "a.png" 2) gap_session)
  = Raise (HTTPException 500 "Failed to combine chunks: 1").
Proof. vm_compute. reflexivity. Qed.

(** The two timestamps of the record of a completed upload: the upload
    time is the first clock reading, the expiry time is 24 hours after the
    second. *)
Lemma complete_upload_timestamps env request w resp w' :
  complete_upload env request w = (Return resp, w') →
  ∃ file_id link r,
    resp = UploadCompleted file_id link
    ∧ dict_get file_id (file_metadata w') = Some (record_dict r)
    ∧ upload_time r = wall_clock env (clock_pos w)
    ∧ add (wall_clock env (S (clock_pos w))) (hours 24) = Some (expiry_time r).
Proof.
  unfold complete_upload. rewrite run_gets.
  destruct (dict_get _ _) as [chunks|]; [|done].
  destruct (negb _); [done|]. rewrite bind_run.
  destruct (generate_short_id_frame env 6 w) as [k Hk].
  destruct (generate_short_id env 6 w) as [[file_id|e|] w1]; [|done..].
  cbn [snd] in Hk. subst w1. rewrite bind_run, try_except_run.
  match goal with |- context [combine_chunks ?e ?o ?c ?n ?w1] =>
    destruct (combine_chunks_files e o c n w1) as [fs Hfs];
    destruct (combine_chunks e o c n w1) as [[[]|e'|] w2]; [|done..] end.
  cbn [snd] in Hfs. subst w2. rewrite run_modify, run_stat_size.
  destruct (files _ !! _) as [g|] eqn:Hg; [|done].
  rewrite run_read_bytes, Hg, !run_now.
  cbn [clock_pos set_clock_pos set_chunk_tracking set_files set_rng_pos].
  destruct (add _ _) as [expiry|] eqn:Hadd; [|done].
  rewrite run_modify, run_save_metadata. intros [= <- <-].
  eexists _, _, _. split; [reflexivity|].
  cbn [file_metadata write_metadata_file set_file_metadata].
  split; [apply dict_get_set_same|]. split; reflexivity.
Qed.

(** * Further properties of the code *)

(** ** The allocation loop *)

Lemma random_choices_run env n w :
  random_choices env chars n w
  = (Return (drawn env n (rng_pos w)), set_rng_pos (rng_pos w + n) w).
Proof. reflexivity. Qed.

Lemma generate_short_id_loop_step env fuel n w :
  generate_short_id_loop env (S fuel) n w
  = match files w !! PyPath.join UPLOAD_DIR (drawn env n (rng_pos w)) with
    | Some _ => generate_short_id_loop env fuel n (set_rng_pos (rng_pos w + n) w)
    | None => (Return (drawn env n (rng_pos w)), set_rng_pos (rng_pos w + n) w)
    end.
Proof.
  cbn [generate_short_id_loop]. rewrite bind_run, random_choices_run, run_path_exists.
  cbn [files set_rng_pos]. by destruct (files w !! _).
Qed.

Lemma retry_until_free env n k : ∀ fuel w,
  (k < fuel)%nat →
  (∀ j, (j < k)%nat →
        is_Some (files w !! PyPath.join UPLOAD_DIR (drawn env n (rng_pos w + j * n)))) →
  files w !! PyPath.join UPLOAD_DIR (drawn env n (rng_pos w + k * n)) = None →
  generate_short_id_loop env fuel n w
  = (Return (drawn env n (rng_pos w + k * n)), set_rng_pos (rng_pos w + S k * n) w).
Proof.
  induction k as [|k IH]; intros fuel w Hfuel Htaken Hfree;
    (destruct fuel as [|fuel]; [lia|]); rewrite generate_short_id_loop_step.
  - rewrite Nat.mul_0_l, Nat.add_0_r in Hfree. rewrite Hfree.
    by rewrite Nat.mul_0_l, Nat.add_0_r, Nat.mul_1_l.
  - destruct (Htaken 0%nat) as [f Hf]; [lia|].
    rewrite Nat.mul_0_l, Nat.add_0_r in Hf. rewrite Hf.
    rewrite (IH fuel (set_rng_pos (rng_pos w + n) w)).
    + cbn [rng_pos set_rng_pos]. f_equal; [do 2 f_equal; lia|].
      unfold set_rng_pos. cbn. f_equal. lia.
    + lia.
    + intros j Hj. cbn [rng_pos files set_rng_pos].
      replace (rng_pos w + n + j * n)%nat with (rng_pos w + S j * n)%nat by lia.
      apply Htaken. lia.
    + cbn [rng_pos files set_rng_pos].
      by replace (rng_pos w + n + k * n)%nat with (rng_pos w + S k * n)%nat by lia.
Qed.

(** X1.  The allocator never raises.  When it returns, the identifier has
    the requested length, is made of ASCII letters and digits, and the
    upload directory has no entry of that name; of the state only the
    position in the random stream has changed. *)
Theorem allocator_outcome (env : Env) (n : nat) (w : World) :
  (∀ e, fst (generate_short_id env n w) ≠ Raise e)
  ∧ (∃ k, snd (generate_short_id env n w) = set_rng_pos k w)
  ∧ (∀ short_id, fst (generate_short_id env n w) = Return short_id →
       String.length short_id = n
       ∧ (∀ c, In c (list_ascii_of_string short_id) → PyStr.mem_char c chars = true)
       ∧ files w !! PyPath.join UPLOAD_DIR short_id = None).
Proof.
  split; [intros e; apply generate_short_id_no_raise|].
  split; [apply generate_short_id_frame|].
  intros short_id Hret.
  apply (generate_short_id_returns env n w short_id (snd (generate_short_id env n w))).
  destruct (generate_short_id env n w) as [o w']. cbn in Hret. by subst o.
Qed.

(** X2.  The allocator retries: when the first [k] draws name entries of
    the upload directory and the next draw does not, it returns that draw
    and has consumed [k + 1] draws, provided the evaluation follows that
    many. *)
Theorem allocator_retries_until_free (env : Env) (n k : nat) (w : World) :
  (k < draws env)%nat →
  (∀ j, (j < k)%nat →
        is_Some (files w !! PyPath.join UPLOAD_DIR (drawn env n (rng_pos w + j * n)))) →
  files w !! PyPath.join UPLOAD_DIR (drawn env n (rng_pos w + k * n)) = None →
  generate_short_id env n w
  = (Return (drawn env n (rng_pos w + k * n)), set_rng_pos (rng_pos w + S k * n) w).
Proof. intros Hk Htaken Hfree. unfold generate_short_id. by apply retry_until_free. Qed.

(** X3.  The loop has no bound of its own: when every draw of the stream
    names an entry of the upload directory, the allocator has not returned
    after any number of draws. *)
Theorem allocator_loops_while_taken (env : Env) (n : nat) (w : World) :
  (∀ j, is_Some (files w !! PyPath.join UPLOAD_DIR (drawn env n (rng_pos w + j * n)))) →
  ∀ fuel, fst (generate_short_id_loop env fuel n w) = Timeout.
Proof.
  intros Htaken fuel. revert w Htaken.
  induction fuel as [|fuel IH]; intros w Htaken; [reflexivity|].
  rewrite generate_short_id_loop_step.
  destruct (Htaken 0%nat) as [f Hf]. rewrite Nat.mul_0_l, Nat.add_0_r in Hf. rewrite Hf.
  apply IH. intros j. cbn [rng_pos files set_rng_pos].
  replace (rng_pos w + n + j * n)%nat with (rng_pos w + S j * n)%nat by lia.
  apply Htaken.
Qed.

(** ** Storing a chunk *)

Section DictSet.
Context {K : Type} `{EqDecision K} {V : Type}.
Implicit Types (k : K) (d : list (K * V)).

Lemma dict_get_set_other k k' (v : V) d :
  k ≠ k' → dict_get k (dict_set k' v d) = dict_get k d.
Proof.
  intros Hne. induction d as [|[k0 v0] d IH]; cbn [dict_set dict_get].
  - by rewrite decide_False by done.
  - destruct (decide (k0 = k')) as [->|Hne']; cbn [dict_get].
    + by rewrite !decide_False by done.
    + destruct (decide (k0 = k)); [done|apply IH].
Qed.

Lemma dict_mem_get k d :
  dict_mem k d = match dict_get k d with Some _ => true | None => false end.
Proof. reflexivity. Qed.

End DictSet.

(** The tracker after [chunk_tracking[fileName][chunkIndex] = chunk_path],
    the session created first when it is not there. *)
Lemma track_chunk_lookup (tracking : list (string * list (Z * string)))
    (fileName : string) (chunkIndex : Z) (chunk_path : string) :
  let opened := if dict_mem fileName tracking then tracking
                else dict_set fileName [] tracking in
  let tracked := match dict_get fileName opened with
                 | Some v => dict_set fileName (dict_set chunkIndex chunk_path v) opened
                 | None => opened
                 end in
  let before := match dict_get fileName tracking with Some v => v | None => [] end in
  dict_get fileName tracked = Some (dict_set chunkIndex chunk_path before)
  ∧ ∀ other, other ≠ fileName → dict_get other tracked = dict_get other tracking.
Proof.
  intros opened tracked before. subst opened tracked before.
  rewrite dict_mem_get. destruct (dict_get fileName tracking) as [v|] eqn:Hget.
  - rewrite Hget. split; [apply dict_get_set_same|].
    intros other Hne. by apply dict_get_set_other.
  - rewrite dict_get_set_same. split; [apply dict_get_set_same|].
    intros other Hne. by rewrite !dict_get_set_other.
Qed.

(** What [upload_chunk] does once the extension has passed and the
    identifier of the chunk file is known. *)
Lemma upload_chunk_stored env chunk fileName chunkIndex totalChunks w w1 file_id :
  allowed (PyStr.lower (PyPath.suffix fileName)) = true →
  (if chunkIndex =? 0
   then bind (generate_short_id env 6) (fun i => ret (Some i))
   else gets (fun w => find_session fileName (chunk_tracking w))) w
  = (Return (Some file_id), w1) →
  file_id ≠ EmptyString →
  let chunk_path :=
    PyPath.join CHUNK_DIR
      (file_id +:+ "_" +:+ PyStr.str_of_Z chunkIndex +:+ PyStr.lower (PyPath.suffix fileName)) in
  open_failure env chunk_path = None →
  ∃ w2,
    upload_chunk env chunk fileName chunkIndex totalChunks w
    = (Return (ChunkStored chunk_path true), w2)
    ∧ data <$> files w2 !! chunk_path = Some chunk
    ∧ (∀ p, p ≠ chunk_path → files w2 !! p = files w1 !! p)
    ∧ dict_get fileName (chunk_tracking w2)
      = Some (dict_set chunkIndex chunk_path
                (match dict_get fileName (chunk_tracking w1) with
                 | Some v => v
                 | None => []
                 end))
    ∧ (∀ other, other ≠ fileName →
         dict_get other (chunk_tracking w2) = dict_get other (chunk_tracking w1))
    ∧ file_metadata w2 = file_metadata w1
    ∧ metadata_file w2 = metadata_file w1.
Proof.
  intros Hext Hid Hne chunk_path Hopen. unfold upload_chunk. rewrite Hext. cbn [negb].
  rewrite bind_run, Hid.
  destruct file_id as [|c file_id]; [done|].
  fold chunk_path. rewrite bind_run, try_except_run, run_open_wb by exact Hopen.
  unfold write at 1, modify at 1. rewrite !run_modify. unfold ret.
  eexists. split; [reflexivity|].
  cbn [files chunk_tracking file_metadata metadata_file set_files set_chunk_tracking].
  split; [by rewrite lookup_alter_eq, lookup_insert_eq|].
  split.
  { intros p Hp. rewrite lookup_alter_ne by done. by rewrite lookup_insert_ne by done. }
  destruct (track_chunk_lookup (chunk_tracking w1) fileName chunkIndex chunk_path)
    as [Hsame Hother].
  split; [exact Hsame|]. split; [exact Hother|]. done.
Qed.

Lemma allocator_retries_until_free_witness :
  generate_short_id env_seq 6 bare_entry = (Return "ghijkl", set_rng_pos 12 bare_entry).
Proof.
  apply (allocator_retries_until_free env_seq 6 1 bare_entry).
  - vm_compute. lia.
  - intros j Hj. replace j with 0%nat by lia. vm_compute. eauto.
  - vm_compute. reflexivity.
Defined.

Lemma allocator_loops_while_taken_witness :
  fst (generate_short_id_loop env_a 1000 6 all_taken) = Timeout.
Proof.
  apply (allocator_loops_while_taken env_a 6 all_taken).
  intros j. vm_compute. eauto.
Defined.

(** X4.  A chunk with index 0 and an allowed extension, the allocator
    returning an identifier: the chunk bytes are written to the file
    named by the identifier, the index and the extension in the chunk
    directory, and the session of the file name, created when it was not
    there, binds index 0 to that file, in place of an earlier chunk 0.
    The other indices of the session, the other sessions, the other files
    and the metadata store are as before. *)
Theorem first_chunk_stored (env : Env) (chunk : list Byte.byte) (fileName : string)
    (totalChunks : Z) (w w0 : World) (file_id : string) :
  allowed (PyStr.lower (PyPath.suffix fileName)) = true →
  generate_short_id env 6 w = (Return file_id, w0) →
  let chunk_path :=
    PyPath.join CHUNK_DIR (file_id +:+ "_0" +:+ PyStr.lower (PyPath.suffix fileName)) in
  let after := upload_chunk env chunk fileName 0 totalChunks w in
  fst after = Return (ChunkStored chunk_path true)
  ∧ data <$> files (snd after) !! chunk_path = Some chunk
  ∧ (∀ p, p ≠ chunk_path → files (snd after) !! p = files w !! p)
  ∧ dict_get fileName (chunk_tracking (snd after))
    = Some (dict_set 0 chunk_path
              (match dict_get fileName (chunk_tracking w) with
               | Some v => v
               | None => []
               end))
  ∧ (∀ other, other ≠ fileName →
       dict_get other (chunk_tracking (snd after)) = dict_get other (chunk_tracking w))
  ∧ file_metadata (snd after) = file_metadata w.
Proof.
  intros Hext Hgen chunk_path after.
  destruct (generate_short_id_frame env 6 w) as [k Hk]. rewrite Hgen in Hk.
  cbn [snd] in Hk. subst w0.
  destruct (generate_short_id_returns env 6 w file_id _ Hgen) as (Hlen & _ & _).
  destruct (upload_chunk_stored env chunk fileName 0 totalChunks w (set_rng_pos k w) file_id)
    as (w2 & Hrun & Hdata & Hfiles & Hsession & Hothers & Hstore & _).
  - done.
  - change (0 =? 0) with true. cbv beta iota. by rewrite bind_run, Hgen.
  - intros ->. discriminate.
  - exact (open_first_chunk_path env w file_id _ _ Hgen Hext).
  - subst after. rewrite Hrun. cbn [fst snd]. done.
Qed.

Lemma first_chunk_stored_witness :
  fst (upload_chunk env_a [Byte.x89] "a.png" 0 1 empty_world)
  = Return (ChunkStored "chunks/aaaaaa_0.png" true)
  ∧ data <$> files (snd (upload_chunk env_a [Byte.x89] "a.png" 0 1 empty_world))
             !! "chunks/aaaaaa_0.png"
    = Some [Byte.x89].
Proof.
  destruct (first_chunk_stored env_a [Byte.x89] "a.png" 1 empty_world
              (set_rng_pos 6 empty_world) "aaaaaa") as (Hret & Hdata & _).
  - reflexivity.
  - vm_compute. reflexivity.
  - split; [exact Hret|exact Hdata].
Defined.

(** X5.  A chunk with another index and an allowed extension draws no
    identifier.  It is refused with 400 Upload session not found, the
    state untouched, when no tracked session has the file name in the
    text of its chunk dict, as it is when nothing is tracked.  Otherwise
    the chunk file is named by the key of the first such session, which
    is a file name a client has sent.  When the file system refuses to
    open that path, as it does for a key with a slash that names no
    directory, the chunk is refused with 500 Failed to save chunk and the
    text of the error, the state untouched; when the path is opened, the
    chunk is written to it and recorded under the file name of the
    request. *)
Theorem later_chunk_outcome (env : Env) (chunk : list Byte.byte) (fileName : string)
    (chunkIndex totalChunks : Z) (w : World) :
  allowed (PyStr.lower (PyPath.suffix fileName)) = true →
  chunkIndex ≠ 0 →
  let after := upload_chunk env chunk fileName chunkIndex totalChunks w in
  (chunk_tracking w = [] → find_session fileName (chunk_tracking w) = None)
  ∧ match find_session fileName (chunk_tracking w) with
    | None | Some EmptyString =>
        after = (Raise (HTTPException 400 "Upload session not found"), w)
    | Some key =>
        let chunk_path :=
          PyPath.join CHUNK_DIR
            (key +:+ "_" +:+ PyStr.str_of_Z chunkIndex
                 +:+ PyStr.lower (PyPath.suffix fileName)) in
        match open_failure env chunk_path with
        | Some e =>
            after
            = (Raise (HTTPException 500 ("Failed to save chunk: " +:+ str_exn e)), w)
        | None =>
            fst after = Return (ChunkStored chunk_path true)
            ∧ data <$> files (snd after) !! chunk_path = Some chunk
            ∧ dict_get fileName (chunk_tracking (snd after))
              = Some (dict_set chunkIndex chunk_path
                        (match dict_get fileName (chunk_tracking w) with
                         | Some v => v
                         | None => []
                         end))
            ∧ rng_pos (snd after) = rng_pos w
        end
    end.
Proof.
  intros Hext Hidx after. split; [by intros ->|].
  assert (Hsel : (chunkIndex =? 0) = false) by by apply Z.eqb_neq.
  destruct (find_session fileName (chunk_tracking w)) as [key|] eqn:Hfind.
  - destruct key as [|c key].
    + subst after. unfold upload_chunk. rewrite Hext, Hsel. cbn [negb].
      by rewrite run_gets, Hfind.
    + cbv zeta.
      destruct (open_failure env _) as [e|] eqn:Hopen.
      * subst after. unfold upload_chunk. rewrite Hext, Hsel. cbn [negb].
        rewrite run_gets, Hfind. rewrite bind_run, try_except_run.
        by rewrite (run_open_wb_refused env w _ _ e Hopen).
      * destruct (upload_chunk_stored env chunk fileName chunkIndex totalChunks w w
                    (String c key)) as (w2 & Hrun & Hdata & _ & Hsession & _).
        -- done.
        -- rewrite Hsel. unfold gets. by rewrite Hfind.
        -- done.
        -- exact Hopen.
        -- subst after. rewrite Hrun. cbn [fst snd]. repeat split; try done.
           clear -Hrun Hext Hsel Hfind Hopen. unfold upload_chunk in Hrun.
           rewrite Hext, Hsel in Hrun. cbn [negb] in Hrun. rewrite run_gets, Hfind in Hrun.
           rewrite bind_run, try_except_run, run_open_wb in Hrun by exact Hopen.
           unfold write at 1, modify at 1 in Hrun. rewrite !run_modify in Hrun.
           apply (f_equal snd) in Hrun. cbn [snd] in Hrun. by subst w2.
  - subst after. unfold upload_chunk. rewrite Hext, Hsel. cbn [negb].
    by rewrite run_gets, Hfind.
Qed.

Lemma later_chunk_outcome_witness :
  (find_session "0.png" (chunk_tracking first_of_two) = Some "0.png"
   ∧ fst (upload_chunk env_seq [Byte.x02; Byte.x03] "0.png" 1 2 first_of_two)
     = Return (ChunkStored "chunks/0.png_1.png" true))
  ∧ (find_session "0.png" (chunk_tracking nested_key) = Some "d/0.png"
     ∧ upload_chunk env_seq [Byte.x02; Byte.x03] "0.png" 1 2 nested_key
       = (Raise (HTTPException 500
                   ("Failed to save chunk: "
                    +:+ str_exn (FileNotFoundError "chunks/d/0.png_1.png"))),
          nested_key)).
Proof.
  split.
  - assert (Hfind : find_session "0.png" (chunk_tracking first_of_two) = Some "0.png")
      by (vm_compute; reflexivity).
    split; [exact Hfind|].
    pose proof (proj2 (later_chunk_outcome env_seq [Byte.x02; Byte.x03] "0.png" 1 2
                         first_of_two eq_refl ltac:(discriminate))) as H.
    cbv zeta in H. destruct H as [H _]. rewrite H. vm_compute. reflexivity.
  - assert (Hfind : find_session "0.png" (chunk_tracking nested_key) = Some "d/0.png")
      by (vm_compute; reflexivity).
    split; [exact Hfind|].
    pose proof (proj2 (later_chunk_outcome env_seq [Byte.x02; Byte.x03] "0.png" 1 2
                         nested_key eq_refl ltac:(discriminate))) as H.
    cbv zeta in H. exact H.
Defined.

(** ** An assembly that fails on the way *)

Lemma for_each_app {A} (xs ys : list A) (body : A → M unit) (w : World) :
  for_each (xs ++ ys) body w = bind (for_each xs body) (fun _ => for_each ys body) w.
Proof.
  revert w. induction xs as [|x xs IH]; intros w; [reflexivity|].
  cbn [app for_each]. rewrite !bind_run. destruct (body x w) as [[[]|e|] w1]; [|done..].
  rewrite IH. by rewrite bind_run.
Qed.

Lemma range_split (j : nat) (n : Z) :
  Z.of_nat j < n →
  range n = List.map Z.of_nat (seq 0 j)
            ++ Z.of_nat j :: List.map Z.of_nat (seq (S j) (Z.to_nat n - S j)).
Proof.
  intros Hlt. unfold range.
  replace (Z.to_nat n) with (j + S (Z.to_nat n - S j))%nat by lia.
  rewrite seq_app, List.map_app. cbn [seq List.map Nat.add].
  by replace (j + S (Z.to_nat n - S j) - S j)%nat with (Z.to_nat n - S j)%nat by lia.
Qed.

Lemma append_chunk_fails env out chunks fs_before i e w :
  failure_at out chunks fs_before i e →
  (∀ q, q ≠ out → fs_before !! q = None → files w !! q = None) →
  append_chunk env out chunks i w = (Raise e, w).
Proof.
  intros [[Hnone ->]|(p & Hsome & Hmissing & Hne & ->)] Habsent; unfold append_chunk.
  - by rewrite Hnone.
  - rewrite Hsome, run_ret, run_read_bytes. by rewrite (Habsent p Hne Hmissing).
Qed.

(** X6.  No rollback.  When the chunks of the indices below [j] are there
    and the chunk of index [j] is not, [j] below [totalChunks], a
    [complete_upload] that has passed the count check answers 500 with the
    text of that exception; the new object is left holding the first [j]
    chunks, their files are gone, and the tracker and the metadata store
    are as before. *)
Theorem partial_assembly_is_kept (env : Env) (request : CompleteUploadRequest)
    (w w0 : World) (chunks : list (Z * string)) (parts : list (string * list Byte.byte))
    (file_id : string) (e : exn) :
  dict_get (fileName request) (chunk_tracking w) = Some chunks →
  dict_len chunks = totalChunks request →
  (∀ i pc, parts !! i = Some pc → dict_get (Z.of_nat i) chunks = Some pc.1) →
  Forall (fun pc => data <$> files w !! pc.1 = Some pc.2) parts →
  NoDup parts.*1 →
  Z.of_nat (length parts) < totalChunks request →
  generate_short_id env 6 w = (Return file_id, w0) →
  let output_path :=
    PyPath.join UPLOAD_DIR (file_id +:+ PyStr.lower (PyPath.suffix (fileName request))) in
  output_path ∉ parts.*1 →
  failure_at output_path chunks (files w) (Z.of_nat (length parts)) e →
  let after := complete_upload env request w in
  fst after = Raise (HTTPException 500 ("Failed to combine chunks: " +:+ str_exn e))
  ∧ data <$> files (snd after) !! output_path = Some (List.concat parts.*2)
  ∧ (∀ p, p ∈ parts.*1 → files (snd after) !! p = None)
  ∧ chunk_tracking (snd after) = chunk_tracking w
  ∧ file_metadata (snd after) = file_metadata w
  ∧ metadata_file (snd after) = metadata_file w.
Proof.
  intros Hget Hlen Hidx Hfiles Hnodup Hlt Hgen output_path Hnotin Hfail after.
  destruct (generate_short_id_frame env 6 w) as [k Hk]. rewrite Hgen in Hk.
  cbn [snd] in Hk. subst w0.
  set (w1 := set_files (insert output_path (mk_file [] (os_time env (set_rng_pos k w))))
               (set_rng_pos k w)).
  destruct (assemble_loop env output_path chunks parts 0 w1
              (mk_file [] (os_time env (set_rng_pos k w))))
    as (fs & Hrun & Hdata & Hgone & Habsent).
  { subst w1. cbn [files set_files]. apply lookup_insert_eq. }
  { intros j pc Hj. cbn [Nat.add]. by apply Hidx. }
  { rewrite Forall_forall in Hfiles. apply Forall_forall. intros [q cq] Hq. cbn [fst snd].
    subst w1. cbn [files set_files set_rng_pos]. rewrite lookup_insert_ne.
    - by apply (Hfiles (q, cq)).
    - intros ->. apply Hnotin. apply list_elem_of_fmap. by exists (q, cq). }
  { done. }
  { done. }
  assert (Hcombine :
    combine_chunks env output_path chunks (totalChunks request) (set_rng_pos k w)
    = (Raise e, set_files (fun _ => fs) w1)).
  { unfold combine_chunks.
    rewrite run_open_wb by exact (open_object_path env w file_id _ (fileName request) Hgen).
    fold w1.
    rewrite (range_split (length parts) _ Hlt), for_each_app, bind_run, Hrun.
    cbn [for_each]. rewrite bind_run.
    rewrite (append_chunk_fails env output_path chunks (files w) _ e); [done..|].
    intros q Hq Hmissing. cbn [files set_files]. apply Habsent; [done|].
    subst w1. cbn [files set_files set_rng_pos]. by rewrite lookup_insert_ne. }
  subst after. unfold complete_upload. rewrite run_gets, Hget, Hlen, Z.eqb_refl.
  cbn [negb]. rewrite bind_run, Hgen, bind_run, try_except_run.
  fold output_path. rewrite Hcombine. unfold raise.
  cbn [fst snd files chunk_tracking file_metadata metadata_file set_files set_rng_pos w1].
  subst w1. cbn [chunk_tracking file_metadata metadata_file set_files set_rng_pos].
  split; [done|]. split; [by rewrite Hdata|]. done.
Qed.

Lemma partial_assembly_is_kept_witness :
  fst (complete_upload env_a (mk_complete "a.png" 2) gap_session)
  = Raise (HTTPException 500 "Failed to combine chunks: 1")
  ∧ data <$> files (snd (complete_upload env_a (mk_complete "a.png" 2) gap_session))
             !! "uploads/aaaaaa.png"
    = Some [Byte.x89]
  ∧ files (snd (complete_upload env_a (mk_complete "a.png" 2) gap_session))
          !! "chunks/aaaaaa_0.png"
    = None.
Proof.
  destruct (partial_assembly_is_kept env_a (mk_complete "a.png" 2) gap_session
              (set_rng_pos 12 gap_session)
              [(0, "chunks/aaaaaa_0.png"); (2, "chunks/aaaaaa_2.png")]
              [("chunks/aaaaaa_0.png", [Byte.x89])] "aaaaaa" (KeyError "1"))
    as (Hret & Hdata & Hgone & _).
  - reflexivity.
  - reflexivity.
  - intros [|i] pc Hi; [by injection Hi as <-|done].
  - repeat constructor.
  - apply (bool_decide_unpack _). vm_compute. exact I.
  - vm_compute. reflexivity.
  - vm_compute. reflexivity.
  - apply (bool_decide_unpack _). vm_compute. exact I.
  - left. split; reflexivity.
  - split; [exact Hret|]. split; [exact Hdata|]. apply Hgone.
    apply list_elem_of_singleton. reflexivity.
Defined.

(** ** A completed upload *)

Lemma complete_upload_returns (env : Env) (request : CompleteUploadRequest)
    (w w' : World) (resp : response) :
  complete_upload env request w = (Return resp, w') →
  let file_ext := PyStr.lower (PyPath.suffix (fileName request)) in
  ∃ file_id object r,
    resp = UploadCompleted file_id ("/files/" +:+ file_id +:+ file_ext)
    ∧ chunk_tracking w' = dict_del (fileName request) (chunk_tracking w)
    ∧ files w' !! PyPath.join UPLOAD_DIR (file_id +:+ file_ext) = Some object
    ∧ file_metadata w' = dict_set file_id (record_dict r) (file_metadata w)
    ∧ original_name r = fileName request
    ∧ extension r = file_ext
    ∧ size r = Z.of_nat (length (data object))
    ∧ mime_type r = magic_from_file env (data object)
    ∧ human_size r = naturalsize env (size r)
    ∧ upload_time r = wall_clock env (clock_pos w)
    ∧ add (wall_clock env (S (clock_pos w))) (hours 24) = Some (expiry_time r)
    ∧ metadata_file w'
      = Some (Document (List.map (fun kv => (fst kv, json_dump (snd kv))) (file_metadata w')))
    ∧ snapshots w' = S (snapshots w)
    ∧ stdout w' = stdout w
    ∧ clock_pos w' = S (S (clock_pos w))
    ∧ PyStr.mem_char "." file_id = false.
Proof.
  intros Hrun file_ext. revert Hrun.
  unfold complete_upload. rewrite run_gets.
  destruct (dict_get _ _) as [chunks|]; [|done].
  destruct (negb _); [done|]. rewrite bind_run.
  destruct (generate_short_id_frame env 6 w) as [k Hk].
  destruct (generate_short_id env 6 w) as [[file_id|e|] w1] eqn:Hgen; [|done..].
  destruct (generate_short_id_returns env 6 w file_id w1 Hgen) as (_ & Hchars & _).
  cbn [snd] in Hk. subst w1. rewrite bind_run, try_except_run.
  match goal with |- context [combine_chunks ?e ?o ?c ?n ?w1] =>
    destruct (combine_chunks_files e o c n w1) as [fs Hfs];
    destruct (combine_chunks e o c n w1) as [[[]|e'|] w2]; [|done..] end.
  cbn [snd] in Hfs. subst w2. rewrite run_modify, run_stat_size.
  destruct (files _ !! _) as [g|] eqn:Hg; [|done].
  rewrite run_read_bytes, Hg, !run_now.
  cbn [clock_pos set_clock_pos set_chunk_tracking set_files set_rng_pos].
  destruct (add _ _) as [expiry|] eqn:Hadd; [|done].
  rewrite run_modify, run_save_metadata. intros [= <- <-].
  eexists file_id, g, _.
  cbn [chunk_tracking files file_metadata metadata_file snapshots stdout
       write_metadata_file set_file_metadata set_clock_pos set_chunk_tracking
       set_files set_rng_pos] in *.
  split; [reflexivity|]. split; [reflexivity|]. split; [exact Hg|].
  split; [reflexivity|]. cbn [original_name extension size mime_type human_size
                              upload_time expiry_time].
  repeat split; try done.
  clear -Hchars. induction file_id as [|a s IH]; [reflexivity|].
  cbn [PyStr.mem_char]. rewrite IH by (intros c Hc; apply Hchars; by right).
  destruct (Ascii.eqb_spec a "."); [|reflexivity].
  subst a. by specialize (Hchars "."%char (or_introl eq_refl)).
Qed.

(** X7.  Whenever [complete_upload] returns, the answer carries the new
    identifier and the link made of it and of the lower-case extension;
    the session has left the tracker; the new object is in the upload
    directory and the record stored under the identifier describes it:
    the file name of the request, the type the sniffer reports for its
    bytes, its length, the first clock reading as upload time and the
    second plus 24 hours as expiry time; and the metadata file has been
    written once more and holds the whole store. *)
Theorem completed_upload_effects (env : Env) (request : CompleteUploadRequest)
    (w w' : World) (resp : response) :
  complete_upload env request w = (Return resp, w') →
  let file_ext := PyStr.lower (PyPath.suffix (fileName request)) in
  ∃ file_id object r,
    resp = UploadCompleted file_id ("/files/" +:+ file_id +:+ file_ext)
    ∧ chunk_tracking w' = dict_del (fileName request) (chunk_tracking w)
    ∧ files w' !! PyPath.join UPLOAD_DIR (file_id +:+ file_ext) = Some object
    ∧ file_metadata w' = dict_set file_id (record_dict r) (file_metadata w)
    ∧ original_name r = fileName request
    ∧ extension r = file_ext
    ∧ size r = Z.of_nat (length (data object))
    ∧ mime_type r = magic_from_file env (data object)
    ∧ human_size r = naturalsize env (size r)
    ∧ upload_time r = wall_clock env (clock_pos w)
    ∧ add (wall_clock env (S (clock_pos w))) (hours 24) = Some (expiry_time r)
    ∧ metadata_file w'
      = Some (Document (List.map (fun kv => (fst kv, json_dump (snd kv))) (file_metadata w')))
    ∧ snapshots w' = S (snapshots w)
    ∧ stdout w' = stdout w.
Proof.
  intros Hrun file_ext.
  destruct (complete_upload_returns env request w w' resp Hrun)
    as (file_id & object & r & H).
  exists file_id, object, r. fold file_ext in H. tauto.
Qed.

Lemma completed_upload_effects_witness :
  complete_upload env_a (mk_complete "a.png" 1) one_chunk
  = (Return (UploadCompleted "aaaaaa" "/files/aaaaaa.png"), one_upload)
  ∧ chunk_tracking one_upload = []
  ∧ snapshots one_upload = 1%nat.
Proof.
  assert (Hrun : complete_upload env_a (mk_complete "a.png" 1) one_chunk
                 = (Return (UploadCompleted "aaaaaa" "/files/aaaaaa.png"), one_upload))
    by (vm_compute; reflexivity).
  destruct (completed_upload_effects env_a (mk_complete "a.png" 1) one_chunk one_upload _ Hrun)
    as (file_id & object & r & _ & Htrack & _ & _ & _ & _ & _ & _ & _ & _ & _ & _ & Hsnap & _).
  split; [exact Hrun|]. split; [rewrite Htrack; reflexivity|rewrite Hsnap; reflexivity].
Defined.

(** ** Retrieval *)

Lemma getitem_cases v k : (∃ x, getitem v k = ret x) ∨ (∃ e, getitem v k = raise e).
Proof.
  unfold getitem. destruct v; eauto. destruct (dict_get k d); eauto.
Qed.

Lemma datetime_gt_cases now v :
  (∃ b, datetime_gt now v = ret b) ∨ (∃ e, datetime_gt now v = raise e).
Proof. unfold datetime_gt. destruct v; eauto. Qed.

Lemma startswith_cases v p :
  (∃ b, startswith v p = ret b) ∨ (∃ e, startswith v p = raise e).
Proof. unfold startswith. destruct v; eauto. Qed.

Lemma strftime_of_cases v :
  (∃ t, strftime_of v = ret t) ∨ (∃ e, strftime_of v = raise e).
Proof. unfold strftime_of. destruct v; eauto. Qed.

Tactic Notation "pure_step" constr(lem) "as" ident(x) :=
  let e := fresh "e" in let H := fresh "H" in
  destruct lem as [[x H]|[e H]]; rewrite H; [rewrite run_ret|by rewrite run_raise].

(** X8.  Retrieval reads and never writes: whatever the store holds and
    whatever the answer is, [get_file] leaves the state as it was, the
    position of the clock apart.  An expired record is reported, not
    removed. *)
Theorem get_file_is_read_only (env : Env) (file_id : string) (request : Request)
    (w : World) :
  ∃ n, snd (get_file env file_id request w) = set_clock_pos n w.
Proof.
  assert (Hsame : w = set_clock_pos (clock_pos w) w) by by destruct w.
  unfold get_file. rewrite run_gets.
  destruct (dict_get _ _) as [metadata|]; [|by exists (clock_pos w)].
  destruct (negb _); [by exists (clock_pos w)|].
  rewrite run_now. exists (S (clock_pos w)).
  pure_step (getitem_cases metadata "expiry_time") as expiry.
  pure_step (datetime_gt_cases (wall_clock env (clock_pos w)) expiry) as expired.
  destruct expired; [done|].
  pure_step (getitem_cases metadata "extension") as ext.
  rewrite run_path_exists. destruct (files _ !! _); cbn [negb]; [|done].
  destruct (wants_raw request).
  - pure_step (getitem_cases metadata "mime_type") as mime.
    pure_step (getitem_cases metadata "original_name") as name. done.
  - pure_step (getitem_cases metadata "mime_type") as mime.
    pure_step (startswith_cases mime "image/") as is_image.
    pure_step (startswith_cases mime "video/") as is_video.
    pure_step (getitem_cases metadata "original_name") as name.
    pure_step (getitem_cases metadata "human_size") as human.
    pure_step (getitem_cases metadata "upload_time") as up.
    pure_step (strftime_of_cases up) as uploaded.
    rewrite run_ret.
    pure_step (strftime_of_cases expiry) as expires. done.
Qed.

(** X9.  A record that has not expired and whose object is there is
    served raw, as the stored object with the recorded type and name,
    when the accept header starts with image/ or video/ or the query has
    raw=true; otherwise the preview page is returned, with the recorded
    name, size and timestamps and a link that ends in raw=true. *)
Theorem get_file_presentation (env : Env) (file_id : string) (request : Request)
    (w : World) (r : FileRecord) (object : file) :
  dict_get (base_id file_id) (file_metadata w) = Some (record_dict r) →
  gt (wall_clock env (clock_pos w)) (expiry_time r) = false →
  files w !! object_path (base_id file_id) r = Some object →
  fst (get_file env file_id request w)
  = if wants_raw request
    then Return (FileResponse (object_path (base_id file_id) r)
                   (PStr (mime_type r)) (PStr (original_name r)))
    else Return (HTMLResponse
           (mk_page (original_name r) (human_size r) (upload_time r) (expiry_time r)
              ("/files/" +:+ base_id file_id +:+ extension r +:+ "?raw=true")
              (mime_type r) (String.prefix "image/" (mime_type r))
              (String.prefix "video/" (mime_type r)))).
Proof.
  intros Hget Hlive Hobject.
  rewrite (get_file_record env file_id request w r Hget), Hlive, Hobject. reflexivity.
Qed.

Lemma get_file_presentation_witness :
  fst (get_file (env_at after_23h) "aaaaaa.png" (mk_request None (Some "true")) exact_upload)
  = Return (FileResponse "uploads/aaaaaa.png" (PStr "image/png") (PStr "a.png")).
Proof.
  apply (get_file_presentation (env_at after_23h) "aaaaaa.png"
           (mk_request None (Some "true")) exact_upload
           (mk_record "a.png" "image/png" 1 "1 Byte" new_year
              (mk_datetime 2024 1 2 0 0 0 0) ".png")
           (mk_file [Byte.x89] 63839750400000000)); vm_compute; reflexivity.
Defined.

Lemma split_at_first_sep (sep : ascii) (s rest : string) :
  PyStr.mem_char sep s = false →
  PyStr.split sep (s +:+ String sep rest) = s :: PyStr.split sep rest.
Proof.
  induction s as [|c s IH].
  - intros _. rewrite append_empty_l. cbn [PyStr.split]. by rewrite Ascii.eqb_refl.
  - cbn [PyStr.mem_char]. intros [Hc Hs]%orb_false_iff.
    rewrite append_cons. cbn [PyStr.split]. rewrite Hc, (IH Hs). reflexivity.
Qed.

(** X10.  Only the part of the request path before its first dot is
    looked up: an identifier followed by a dot and any text is answered
    like the identifier alone. *)
Theorem get_file_ignores_request_extension (env : Env) (file_id rest : string)
    (request : Request) (w : World) :
  PyStr.mem_char "."%char file_id = false →
  get_file env (file_id +:+ String "."%char rest) request w
  = get_file env file_id request w.
Proof.
  intros Hdot.
  assert (Hbase : base_id (file_id +:+ String "."%char rest) = base_id file_id).
  { unfold base_id. rewrite split_at_first_sep by done.
    by rewrite (split_no_sep _ file_id) by done. }
  unfold get_file. by rewrite Hbase.
Qed.

Lemma get_file_ignores_request_extension_witness :
  get_file (env_at after_23h) "aaaaaa.jpeg" plain_request exact_upload
  = get_file (env_at after_23h) "aaaaaa" plain_request exact_upload.
Proof.
  apply (get_file_ignores_request_extension (env_at after_23h) "aaaaaa" "jpeg"
           plain_request exact_upload).
  reflexivity.
Defined.

(** X11.  A stored value that is true but has no expiry time to compare,
    because it is no dict, has no such key, or holds something else than
    a [datetime] there, as a timestamp text that failed to parse at load
    does: [get_file] raises [TypeError] or [KeyError], neither 404 nor
    410. *)
Theorem get_file_on_unreadable_record (env : Env) (file_id : string) (request : Request)
    (w : World) (metadata : pyval) :
  dict_get (base_id file_id) (file_metadata w) = Some metadata →
  truthy metadata = true →
  expiry_of metadata = None →
  fst (get_file env file_id request w) = Raise TypeError
  ∨ fst (get_file env file_id request w) = Raise (KeyError (PyStr.repr "expiry_time")).
Proof.
  intros Hget Htrue Hexp. unfold get_file. rewrite run_gets, Hget, Htrue. cbn [negb].
  rewrite run_now. unfold expiry_of in Hexp. unfold getitem.
  destruct metadata as [| | | | |l|d]; try (left; by rewrite run_raise).
  destruct (dict_get "expiry_time" d) as [v|]; [|right; by rewrite run_raise].
  rewrite run_ret. unfold datetime_gt.
  destruct v; try (left; by rewrite run_raise). done.
Qed.

Lemma get_file_on_unreadable_record_witness :
  dict_get "aaaaaa" (file_metadata odd_store)
  = Some (PDict [("original_name", PStr "a.png"); ("mime_type", PStr "image/png");
                 ("size", PInt 1); ("human_size", PStr "1 Byte");
                 ("upload_time", PDatetime new_year);
                 ("expiry_time", PStr "tomorrow"); ("extension", PStr ".png")])
  ∧ fst (get_file (env_at after_23h) "aaaaaa.png" plain_request odd_store)
    = Raise TypeError.
Proof.
  split; [vm_compute; reflexivity|].
  destruct (get_file_on_unreadable_record (env_at after_23h) "aaaaaa.png" plain_request
              odd_store
              (PDict [("original_name", PStr "a.png"); ("mime_type", PStr "image/png");
                      ("size", PInt 1); ("human_size", PStr "1 Byte");
                      ("upload_time", PDatetime new_year);
                      ("expiry_time", PStr "tomorrow"); ("extension", PStr ".png")]))
    as [H|H]; [vm_compute; reflexivity..| exact H |].
  exfalso. revert H. vm_compute. discriminate.
Defined.

(** ** The reaper *)














Lemma expiry_of_some v t :
  expiry_of v = Some t → getitem v "expiry_time" = ret (PDatetime t).
Proof.
  unfold expiry_of, getitem. destruct v as [| | | | |l|d]; try done.
  destruct (dict_get "expiry_time" d) as [x|]; [|done]. destruct x; try done.
  by intros [= ->].
Qed.

Lemma collect_expired_unreadable now items w :
  Exists (fun kv => expiry_of (snd kv) = None) items →
  ∃ e, collect_expired now items w = (Raise e, w).
Proof.
  induction items as [|[k v] items IH]; intros Hbad; [by apply Exists_nil in Hbad|].
  cbn [collect_expired]. destruct (expiry_of v) as [t|] eqn:Hexp.
  - rewrite (expiry_of_some v t Hexp), run_ret. unfold datetime_gt. rewrite run_ret.
    apply Exists_cons in Hbad as [Hhead|Htail]; [cbn [snd] in Hhead; congruence|].
    destruct (IH Htail) as [e He]. exists e. by rewrite bind_run, He.
  - unfold expiry_of in Hexp. unfold getitem.
    destruct v as [| | | | |l|d]; try (eexists; by rewrite run_raise).
    destruct (dict_get "expiry_time" d) as [x|]; [|eexists; by rewrite run_raise].
    rewrite run_ret. unfold datetime_gt.
    destruct x; try (eexists; by rewrite run_raise). done.
Qed.

(** X15.  One value of the store without an expiry time to compare makes
    the whole turn of the reaper fail in its comprehension: the exception
    is printed and swallowed, and nothing is deleted or written, the
    expired records of the store included. *)
Theorem reaper_stopped_by_unreadable_record (env : Env) (w : World) :
  Exists (fun kv => expiry_of (snd kv) = None) (file_metadata w) →
  ∃ e, cleanup_cycle env w
       = (Return tt, print (ErrorInCleanupTask e) (set_clock_pos (S (clock_pos w)) w)).
Proof.
  intros Hbad. unfold cleanup_cycle, cleanup_cycle_body.
  rewrite try_except_run, run_now, run_gets, bind_run.
  cbn [file_metadata set_clock_pos].
  destruct (collect_expired_unreadable (wall_clock env (clock_pos w)) (file_metadata w)
              (set_clock_pos (S (clock_pos w)) w) Hbad) as [e He].
  exists e. by rewrite He.
Qed.

Lemma reaper_stopped_by_unreadable_record_witness :
  ∃ e, cleanup_cycle (env_at after_47h) odd_store
       = (Return tt,
          print (ErrorInCleanupTask e) (set_clock_pos (S (clock_pos odd_store)) odd_store)).
Proof.
  apply (reaper_stopped_by_unreadable_record (env_at after_47h) odd_store).
  apply Exists_cons. left. vm_compute. reflexivity.
Defined.

(** X16.  The encoder writes a datetime as its ISO text under any key, and
    the decoder reads ISO text back as a datetime only under the keys
    upload_time and expiry_time: through a dump and a load, a dict of
    valid datetimes keeps them under these two keys and gets text under
    every other key, and a dict that held the ISO texts instead comes back
    as the very same dict. *)
Theorem codec_restores_datetimes_by_key (d : list (string * datetime)) :
  Forall (fun kt => valid (snd kt) = true) d →
  let loaded :=
    PDict (List.map
             (fun kt => (fst kt,
                         if existsb (String.eqb (fst kt)) time_keys
                         then PDatetime (snd kt)
                         else PStr (isoformat (snd kt)))) d) in
  json_load (json_dump (PDict (List.map (fun kt => (fst kt, PDatetime (snd kt))) d))) = loaded
  ∧ json_load (json_dump (PDict (List.map (fun kt => (fst kt, PStr (isoformat (snd kt)))) d)))
    = loaded.
Proof.
  intros Hvalid loaded.
  assert (Hdump : json_dump (PDict (List.map (fun kt => (fst kt, PStr (isoformat (snd kt)))) d))
                  = json_dump (PDict (List.map (fun kt => (fst kt, PDatetime (snd kt))) d))).
  { cbn [json_dump]. f_equal. rewrite !List.map_map. reflexivity. }
  rewrite Hdump. cut (json_load (json_dump (PDict (List.map (fun kt => (fst kt, PDatetime (snd kt))) d)))
                      = loaded); [by split|].
  subst loaded. cbn [json_dump json_load]. f_equal. unfold object_hook. rewrite !List.map_map.
  apply List.map_ext_Forall. eapply Forall_impl; [exact Hvalid|].
  intros [k t] Ht. cbn [fst snd] in *. cbn [json_dump json_load].
  unfold hook_item, DateTimeEncoder_default. cbn [fst snd].
  destruct (existsb _ _); [|reflexivity].
  by rewrite (fromisoformat_isoformat t Ht).
Qed.

Lemma codec_restores_datetimes_by_key_witness :
  json_load (json_dump (PDict [("upload_time", PDatetime new_year);
                               ("last_seen", PDatetime new_year)]))
  = PDict [("upload_time", PDatetime new_year); ("last_seen", PStr "2024-01-01T00:00:00")].
Proof.
  destruct (codec_restores_datetimes_by_key [("upload_time", new_year); ("last_seen", new_year)])
    as [Hload _].
  - repeat constructor.
  - exact Hload.
Defined.


Lemma split_parts_without (c sep : ascii) (s : string) :
  PyStr.mem_char c s = false →
  Forall (fun p => PyStr.mem_char c p = false) (PyStr.split sep s).
Proof.
  induction s as [|a s IH]; [by repeat constructor|].
  cbn [PyStr.mem_char PyStr.split]. intros [Ha Hs]%orb_false_iff.
  specialize (IH Hs). destruct (Ascii.eqb a sep).
  - by constructor.
  - destruct (PyStr.split sep s) as [|p ps].
    + constructor; [|done]. cbn [PyStr.mem_char]. by rewrite Ha.
    + apply Forall_cons in IH as [Hp Hps]. constructor; [|done].
      cbn [PyStr.mem_char]. by rewrite Ha, Hp.
Qed.

Lemma name_without (c : ascii) (s : string) :
  PyStr.mem_char c s = false → PyStr.mem_char c (PyPath.name s) = false.
Proof.
  intros Hs. unfold PyPath.name, PyPath.parts. apply last_without.
  apply List.Forall_forall. intros p [Hp _]%List.filter_In.
  pose proof (split_parts_without c "/" s Hs) as Hall.
  rewrite List.Forall_forall in Hall. by apply Hall.
Qed.

Lemma rfind_absent (c : ascii) (s : string) :
  PyStr.mem_char c s = false → PyStr.rfind c s = -1.
Proof.
  induction s as [|a s IH]; [reflexivity|].
  cbn [PyStr.mem_char PyStr.rfind]. intros [Ha Hs]%orb_false_iff.
  rewrite (IH Hs), Ha. reflexivity.
Qed.

Lemma suffix_without_dot (s : string) :
  PyStr.mem_char "." s = false → PyPath.suffix s = EmptyString.
Proof.
  intros Hs. unfold PyPath.suffix.
  by rewrite (rfind_absent _ _ (name_without _ _ Hs)).
Qed.

Lemma suffix_of_dot_name (s : string) :
  PyStr.mem_char "." s = false → PyStr.mem_char "/" s = false →
  PyPath.suffix (String "." s) = EmptyString.
Proof.
  intros Hdot Hsep. unfold PyPath.suffix, PyPath.name, PyPath.parts.
  rewrite (split_no_sep "/" (String "." s)) by (cbn [PyStr.mem_char]; by rewrite Hsep).
  destruct s as [|a s]; [reflexivity|].
  change (List.filter _ [String "." (String a s)]) with [String "." (String a s)].
  cbn [List.last].
  assert (Hfirst : PyStr.rfind "." (String "." (String a s)) = 0).
  { change (PyStr.rfind "." (String "." (String a s)))
      with (let r := PyStr.rfind "." (String a s) in
            if 0 <=? r then r + 1 else if Ascii.eqb "." "." then 0 else -1).
    rewrite (rfind_absent _ _ Hdot). reflexivity. }
  rewrite Hfirst. reflexivity.
Qed.

(** X18.  A file name with no dot at all, and one whose only dot is its
    first character and that has no slash, has no suffix for pathlib, and
    the empty suffix is not in the whitelist: the chunk is refused with
    400 File type not allowed and the state is as before. *)
Theorem upload_chunk_needs_an_extension (env : Env) (chunk : list Byte.byte)
    (fileName : string) (chunkIndex totalChunks : Z) (w : World) :
  PyStr.mem_char "." fileName = false
  ∨ (∃ s, fileName = String "." s
          ∧ PyStr.mem_char "." s = false ∧ PyStr.mem_char "/" s = false) →
  upload_chunk env chunk fileName chunkIndex totalChunks w
  = (Raise (HTTPException 400 "File type not allowed"), w).
Proof.
  intros Hname.
  assert (Hsuffix : PyPath.suffix fileName = EmptyString).
  { destruct Hname as [Hdot|(s & -> & Hdot & Hsep)].
    - by apply suffix_without_dot.
    - by apply suffix_of_dot_name. }
  unfold upload_chunk. rewrite Hsuffix. reflexivity.
Qed.

Lemma upload_chunk_needs_an_extension_witness :
  upload_chunk env_a [Byte.x89] "README" 0 1 empty_world
  = (Raise (HTTPException 400 "File type not allowed"), empty_world)
  ∧ upload_chunk env_a [Byte.x89] ".png" 0 1 empty_world
    = (Raise (HTTPException 400 "File type not allowed"), empty_world).
Proof.
  split.
  - apply (upload_chunk_needs_an_extension env_a [Byte.x89] "README" 0 1 empty_world).
    left. reflexivity.
  - apply (upload_chunk_needs_an_extension env_a [Byte.x89] ".png" 0 1 empty_world).
    right. exists "png". repeat split.
Defined.

Lemma rfind_drop (c : ascii) (s : string) :
  0 <= PyStr.rfind c s →
  ∃ rest, PyStr.drop (Z.to_nat (PyStr.rfind c s)) s = String c rest.
Proof.
  induction s as [|a s IH]; [cbn; lia|].
  cbn [PyStr.rfind]. cbv zeta. destruct (0 <=? PyStr.rfind c s) eqn:Hr.
  - intros _. apply Z.leb_le in Hr. destruct (IH Hr) as [rest Hrest]. exists rest.
    replace (Z.to_nat (PyStr.rfind c s + 1)) with (S (Z.to_nat (PyStr.rfind c s))) by lia.
    exact Hrest.
  - destruct (Ascii.eqb_spec a c) as [->|_]; [|lia]. intros _. by exists s.
Qed.

Lemma suffix_shape (s : string) :
  PyStr.lower (PyPath.suffix s) = EmptyString
  ∨ ∃ rest, PyStr.lower (PyPath.suffix s) = String "." rest.
Proof.
  unfold PyPath.suffix. cbv zeta.
  destruct (0 <? PyStr.rfind "." (PyPath.name s)) eqn:Hpos; [|by left].
  destruct (PyStr.rfind "." (PyPath.name s) <? PyStr.len (PyPath.name s) - 1); [|by left].
  cbn [andb]. apply Z.ltb_lt in Hpos.
  destruct (rfind_drop "." (PyPath.name s)) as [rest Hrest]; [lia|].
  right. exists (PyStr.lower rest). rewrite Hrest. reflexivity.
Qed.

Lemma base_id_of_link (file_id : string) (s : string) :
  PyStr.mem_char "." file_id = false →
  base_id (file_id +:+ PyStr.lower (PyPath.suffix s)) = file_id.
Proof.
  intros Hid. unfold base_id. destruct (suffix_shape s) as [->|[rest ->]].
  - rewrite append_empty_r. by rewrite split_no_sep.
  - by rewrite split_at_first_sep.
Qed.

(** X19.  Upload, then fetch.  When [complete_upload] returns and the next
    reading of the clock is not after the expiry it has just recorded,
    [get_file], called for the path of the returned link, finds the
    record and the object: a raw request is answered with the assembled
    object under the file name of the upload and the type the sniffer
    reported, any other request with the preview page of that record. *)
Theorem completed_upload_is_served (env : Env) (request : CompleteUploadRequest)
    (req : Request) (w w' : World) (file_id url : string) :
  complete_upload env request w = (Return (UploadCompleted file_id url), w') →
  (∀ expiry, add (wall_clock env (S (clock_pos w))) (hours 24) = Some expiry →
             gt (wall_clock env (S (S (clock_pos w)))) expiry = false) →
  let file_ext := PyStr.lower (PyPath.suffix (fileName request)) in
  let path := PyPath.join UPLOAD_DIR (file_id +:+ file_ext) in
  ∃ object expiry,
    url = "/files/" +:+ file_id +:+ file_ext
    ∧ files w' !! path = Some object
    ∧ add (wall_clock env (S (clock_pos w))) (hours 24) = Some expiry
    ∧ fst (get_file env (file_id +:+ file_ext) req w')
      = if wants_raw req
        then Return (FileResponse path (PStr (magic_from_file env (data object)))
                       (PStr (fileName request)))
        else Return (HTMLResponse
               (mk_page (fileName request)
                  (naturalsize env (Z.of_nat (length (data object))))
                  (wall_clock env (clock_pos w)) expiry
                  ("/files/" +:+ file_id +:+ file_ext +:+ "?raw=true")
                  (magic_from_file env (data object))
                  (String.prefix "image/" (magic_from_file env (data object)))
                  (String.prefix "video/" (magic_from_file env (data object))))).
Proof.
  intros Hrun Hclock file_ext path.
  destruct (complete_upload_returns env request w w' _ Hrun)
    as (id & object & r & Hresp & _ & Hobject & Hstore & Hname & Hext & Hsize & Hmime
        & Hhuman & Hup & Hexp & _ & _ & _ & Hpos & Hid).
  injection Hresp as <- ->. fold file_ext in Hobject, Hext.
  exists object, (expiry_time r). split; [reflexivity|]. split; [exact Hobject|].
  split; [exact Hexp|].
  assert (Hbase : base_id (file_id +:+ file_ext) = file_id) by by apply base_id_of_link.
  assert (Hget : dict_get (base_id (file_id +:+ file_ext)) (file_metadata w')
                 = Some (record_dict r)).
  { rewrite Hbase, Hstore. apply dict_get_set_same. }
  rewrite (get_file_record env _ req w' r Hget), Hbase, Hpos, (Hclock _ Hexp).
  unfold object_path. rewrite Hext. subst path. rewrite Hobject.
  by rewrite Hname, Hhuman, Hsize, Hmime, Hup.
Qed.

Lemma completed_upload_is_served_witness :
  fst (get_file env_a "aaaaaa.png" (mk_request None (Some "true")) one_upload)
  = Return (FileResponse "uploads/aaaaaa.png" (PStr "image/png") (PStr "a.png")).
Proof.
  destruct (completed_upload_is_served env_a (mk_complete "a.png" 1)
              (mk_request None (Some "true")) one_chunk one_upload
              "aaaaaa" "/files/aaaaaa.png")
    as (object & expiry & _ & Hobject & _ & Hserved).
  - vm_compute. reflexivity.
  - intros expiry Hexp. vm_compute in Hexp. injection Hexp as <-. vm_compute. reflexivity.
  - etransitivity; [exact Hserved|]. reflexivity.
Defined.
